(** * RGB-D calibration engine: a shallow embedding of
      [include/rgbd_calibration/calibration.h] and
      [src/rgbd_calibration/calibration.cpp], with the properties of the
      calibration specification stated and proved over it. *)

From Stdlib Require Import ZArith Lia Bool Floats.SpecFloat String.
From stdpp Require Import base option list.


(** ** Control flow

    A C++ [for (i = 0; i < n; ++i) body] whose body may raise (a checked
    [std::vector::at], a failed [assert], a null [shared_ptr] dereference)
    is a bounded iteration in the option monad: [None] is the aborted run. *)

Fixpoint for_from {St : Type} (start n : nat) (body : nat → St → option St)
    (s : St) : option St :=
  match n with
  | O => Some s
  | S n' => s' ← body start s; for_from (S start) n' body s'
  end.

Definition for_loop {St : Type} (n : nat) (body : nat → St → option St) (s : St)
  : option St := for_from 0 n body s.

(** The same with a loop condition [i < n and cond]. *)
Fixpoint for_while_from {St : Type} (start n : nat) (cond : St → bool)
    (body : nat → St → option St) (s : St) : option St :=
  match n with
  | O => Some s
  | S n' =>
      if cond s then s' ← body start s; for_while_from (S start) n' cond body s'
      else Some s
  end.

Definition for_while {St : Type} (n : nat) (cond : St → bool)
    (body : nat → St → option St) (s : St) : option St :=
  for_while_from 0 n cond body s.

(** ** Single-precision points and clouds (PCL)

    [PCLPoint3] is PCL's XYZ point: three IEEE-754 binary32 coordinates.
    They are modelled bit-exactly by [spec_float] at precision 24 and maximal
    exponent 128. *)

Module F32.

Definition t : Type := spec_float.

Definition prec : Z := 24.
Definition emax : Z := 128.

Definition add (a b : t) : t := SFadd prec emax a b.
Definition div (a b : t) : t := SFdiv prec emax a b.

(** Conversion of an [int] to [float], round-to-nearest-even. *)
Definition of_int (z : Z) : t := binary_normalize prec emax z 0 false.

Definition zero : t := S754_zero false.
Definition quiet_NaN : t := S754_nan.

(** [std::isfinite]. *)
Definition isfinite (a : t) : bool :=
  match a with
  | S754_zero _ | S754_finite _ _ _ => true
  | S754_infinity _ | S754_nan => false
  end.

End F32.

Record PCLPoint3 : Type := mkPoint { px : F32.t; py : F32.t; pz : F32.t }.

Record PCLCloud3 : Type := mkCloud {
  header : nat;              (* the PCL header, copied verbatim *)
  width : nat;
  height : nat;
  is_dense : bool;
  points : list PCLPoint3
}.

(** [pcl::isFinite (p)]. *)
Definition isFinite (p : PCLPoint3) : bool :=
  F32.isfinite (px p) && F32.isfinite (py p) && F32.isfinite (pz p).

(** [cloud.at (column, row)]: PCL's two-dimensional accessor. It raises on a
    cloud that is not organised ([height <= 1]) and otherwise is the checked
    row-major access [points.at (row * width + column)]. *)
Definition cloud_at (c : PCLCloud3) (column row : nat) : option PCLPoint3 :=
  if decide (1 < height c) then points c !! (row * width c + column) else None.

(** Assignment through the reference returned by [cloud.at (column, row)]. *)
Definition cloud_set (c : PCLCloud3) (column row : nat) (p : PCLPoint3)
  : option PCLCloud3 :=
  let k := row * width c + column in
  if decide (1 < height c ∧ k < length (points c)) then
    Some (mkCloud (header c) (width c) (height c) (is_dense c) (<[k:=p]> (points c)))
  else None.

Definition set_is_dense (c : PCLCloud3) (b : bool) : PCLCloud3 :=
  mkCloud (header c) (width c) (height c) b (points c).

(** ** [Calibration::addData_]: the creation-time down-sampling *)

Definition INT_MAX : Z := 2147483647.

Definition zero_point : PCLPoint3 := mkPoint F32.zero F32.zero F32.zero.
Definition bad_point : PCLPoint3 :=
  mkPoint F32.quiet_NaN F32.quiet_NaN F32.quiet_NaN.

(** [q.x += p.x; q.y += p.y; q.z += p.z]. *)
Definition point_accumulate (q p : PCLPoint3) : PCLPoint3 :=
  mkPoint (F32.add (px q) (px p)) (F32.add (py q) (py p)) (F32.add (pz q) (pz p)).

(** [q.x /= count; q.y /= count; q.z /= count], [count] an [int]. *)
Definition point_divide (q : PCLPoint3) (count : nat) : PCLPoint3 :=
  let c := F32.of_int (Z.of_nat count) in
  mkPoint (F32.div (px q) c) (F32.div (py q) c) (F32.div (pz q) c).

(** Body of the two innermost loops (lines 138-151): one input pixel of the
    block of output cell [(j, i)]. The state is the output cloud and [count]. *)
Definition accumulate_pixel (cloud : PCLCloud3) (ratio_ i j di dj : nat)
    (st : PCLCloud3 * nat) : option (PCLCloud3 * nat) :=
  let '(new_cloud, count) := st in
  p ← cloud_at cloud (j * ratio_ + dj) (i * ratio_ + di);
  if isFinite p then
    q ← cloud_at new_cloud j i;
    new_cloud' ← cloud_set new_cloud j i (point_accumulate q p);
    Some (new_cloud', S count)
  else Some st.

(** Body of the [j] loop (lines 136-162): one output cell. *)
Definition downsample_cell (cloud : PCLCloud3) (ratio_ i j : nat)
    (new_cloud : PCLCloud3) : option PCLCloud3 :=
  new_cloud ← cloud_set new_cloud j i zero_point;
  '(new_cloud, count) ←
    for_loop ratio_ (λ di, for_loop ratio_ (λ dj, accumulate_pixel cloud ratio_ i j di dj))
      (new_cloud, 0);
  if decide (0 < count) then
    q ← cloud_at new_cloud j i;
    cloud_set new_cloud j i (point_divide q count)
  else
    new_cloud ← cloud_set new_cloud j i bad_point;
    Some (set_is_dense new_cloud false).

(** The [ratio_ > 1] branch of [addData_] (lines 121-165): the cloud handed to
    [setDepthData]. The product [ratio_ * ratio_] is an [int] product; the run
    is undefined, hence [None], when it leaves the [int] range. *)
Definition downsample (ratio_ : nat) (cloud : PCLCloud3) : option PCLCloud3 :=
  if decide (Z.of_nat ratio_ * Z.of_nat ratio_ ≤ INT_MAX)%Z then
    let new_cloud :=
      mkCloud (header cloud) (width cloud / ratio_) (height cloud / ratio_)
        (is_dense cloud)
        (replicate (length (points cloud) / (ratio_ * ratio_)) zero_point) in
    for_loop (height new_cloud)
      (λ i, for_loop (width new_cloud) (λ j, downsample_cell cloud ratio_ i j))
      new_cloud
  else None.

(** The depth cloud stored in the new frame record. *)
Definition addData_depth (ratio_ : Z) (cloud : PCLCloud3) : option PCLCloud3 :=
  if decide (1 < ratio_)%Z then downsample (Z.to_nat ratio_) cloud else Some cloud.

(** *** The specification's reading of down-sampling *)

(** The pixels of the [ratio_] by [ratio_] input block of output cell
    [(j, i)], in scan order. *)
Definition block_coords (ratio_ i j : nat) : list (nat * nat) :=
  di ← seq 0 ratio_; dj ← seq 0 ratio_; [(j * ratio_ + dj, i * ratio_ + di)].

Definition block (cloud : PCLCloud3) (ratio_ i j : nat) : list PCLPoint3 :=
  omap (λ cr, cloud_at cloud cr.1 cr.2) (block_coords ratio_ i j).

Definition finite_points (ps : list PCLPoint3) : list PCLPoint3 :=
  filter (λ p, isFinite p = true) ps.

(** Component-wise mean, in single precision: the running sum from zero,
    divided by the number of points. *)
Definition mean (ps : list PCLPoint3) : PCLPoint3 :=
  point_divide (foldl point_accumulate zero_point ps) (length ps).

(** An organised input cloud: the storage holds [width * height] points. *)
Definition organized (cloud : PCLCloud3) : Prop :=
  length (points cloud) = width cloud * height cloud.


(** A loop body run over an explicit list of indices, stopping at the first
    failure. *)
Fixpoint fold_opt {A St : Type} (f : A → St → option St) (l : list A) (s : St)
  : option St :=
  match l with
  | [] => Some s
  | a :: l' => s' ← f a s; fold_opt f l' s'
  end.

(** *** Auxiliary notions for the down-sampling proofs *)

(** The value the code leaves in output cell [(j, i)]. *)
Definition cell_value (cloud : PCLCloud3) (ratio_ i j : nat) : PCLPoint3 :=
  let fin := finite_points (block cloud ratio_ i j) in
  if decide (0 < length fin) then mean fin else bad_point.

Definition accumulate_coord (cloud : PCLCloud3) (i j : nat) (cr : nat * nat)
    (st : PCLCloud3 * nat) : option (PCLCloud3 * nat) :=
  let '(new_cloud, count) := st in
  p ← cloud_at cloud cr.1 cr.2;
  if isFinite p then
    q ← cloud_at new_cloud j i;
    new_cloud' ← cloud_set new_cloud j i (point_accumulate q p);
    Some (new_cloud', S count)
  else Some st.

(** Writing a point into a cell of a cloud. *)
Definition with_point (c : PCLCloud3) (k : nat) (p : PCLPoint3) : PCLCloud3 :=
  mkCloud (header c) (width c) (height c) (is_dense c) (<[k:=p]> (points c)).

(** The value of the [k]-th output cell, in row-major order. *)
Definition cell_of (cloud : PCLCloud3) (ratio_ k : nat) : PCLPoint3 :=
  cell_value cloud ratio_ (k / (width cloud / ratio_)) (k mod (width cloud / ratio_)).

Definition cell_nonempty (cloud : PCLCloud3) (ratio_ k : nat) : bool :=
  bool_decide (0 < length (finite_points
    (block cloud ratio_ (k / (width cloud / ratio_)) (k mod (width cloud / ratio_))))).

(** State of the output cloud after [m] cells, in row-major order, have
    been completed. *)
Definition cells_done (cloud : PCLCloud3) (ratio_ m : nat) (nc : PCLCloud3) : Prop :=
  header nc = header cloud ∧
  width nc = width cloud / ratio_ ∧
  height nc = height cloud / ratio_ ∧
  length (points nc) = length (points cloud) / (ratio_ * ratio_) ∧
  is_dense nc = is_dense cloud && forallb (cell_nonempty cloud ratio_) (seq 0 m) ∧
  ∀ k, k < length (points nc) →
       points nc !! k = Some (if decide (k < m) then cell_of cloud ratio_ k else zero_point).

(** Two input clouds that differ at most outside the region covered by whole
    blocks. *)
Definition agree_inside (ratio_ : nat) (c1 c2 : PCLCloud3) : Prop :=
  header c1 = header c2 ∧ width c1 = width c2 ∧ height c1 = height c2 ∧
  is_dense c1 = is_dense c2 ∧
  ∀ column row,
    column < width c1 / ratio_ * ratio_ → row < height c1 / ratio_ * ratio_ →
    cloud_at c1 column row = cloud_at c2 column row.

(** Small integers as [float]s, and the point with three equal coordinates. *)
Definition f32 (z : Z) : F32.t := F32.of_int z.

Definition pt (z : Z) : PCLPoint3 := mkPoint (f32 z) (f32 z) (f32 z).

(** A 4 by 4 cloud: the top-left block holds the finite points (1,2,3) and
    (3,4,5), the top-right block no finite point, the two lower blocks four
    finite points each. *)
Definition sample_cloud : PCLCloud3 :=
  mkCloud 0 4 4 true
    [mkPoint (f32 1) (f32 2) (f32 3); bad_point; bad_point; bad_point;
     mkPoint (f32 3) (f32 4) (f32 5); mkPoint F32.quiet_NaN (f32 0) (f32 0);
       bad_point; mkPoint (f32 0) (S754_infinity false) (f32 0);
     pt 1; pt 3; pt 2; pt 2;
     pt 5; pt 7; pt 6; pt 6].

(** A 5 by 4 cloud and the same cloud with another trailing column. *)
Definition sample_cloud_5x4 : PCLCloud3 :=
  mkCloud 0 5 4 true
    [pt 1; pt 3; pt 2; pt 2; pt 9;
     pt 5; pt 7; pt 6; pt 6; pt 9;
     pt 1; pt 1; pt 4; pt 4; pt 9;
     pt 1; pt 1; pt 4; pt 4; pt 9].

Definition sample_cloud_5x4' : PCLCloud3 :=
  mkCloud 0 5 4 true
    [pt 1; pt 3; pt 2; pt 2; bad_point;
     pt 5; pt 7; pt 6; pt 6; zero_point;
     pt 1; pt 1; pt 4; pt 4; pt 8;
     pt 1; pt 1; pt 4; pt 4; bad_point].

(** ** Scalars

    The residual functors are C++ templates over their scalar [T]; the
    calibration state stores [Scalar = double]. The embedding is generic in
    the scalar type through a class carrying the operations the code uses. *)

Class Scalar (T : Type) : Type := {
  s_of_int : Z → T;            (* [T(i)] for an integer [i]; also 0.0, 1.0, 2.0 *)
  s_half : T;                  (* the literal 0.5 *)
  sadd : T → T → T;
  ssub : T → T → T;
  smul : T → T → T;
  sdiv : T → T → T;
  ssqrt : T → T;               (* [std::sqrt] *)
  sabs : T → T;                (* [std::abs] *)
  sleb : T → T → bool          (* [<=] *)
}.

(** IEEE-754 binary64, the C++ [double]. *)
Module F64.

Definition t : Type := spec_float.

Definition prec : Z := 53.
Definition emax : Z := 1024.

Definition of_int (z : Z) : t := binary_normalize prec emax z 0 false.
Definition half : t := binary_normalize prec emax 1 (-1) false.

End F64.

Definition F64_Scalar : Scalar F64.t := {|
  s_of_int := F64.of_int;
  s_half := F64.half;
  sadd := SFadd F64.prec F64.emax;
  ssub := SFsub F64.prec F64.emax;
  smul := SFmul F64.prec F64.emax;
  sdiv := SFdiv F64.prec F64.emax;
  ssqrt := SFsqrt F64.prec F64.emax;
  sabs := SFabs;
  sleb := SFleb
|}.

(** ** Small Eigen values *)

Record Vector3 (T : Type) : Type := mkV3 { v3x : T; v3y : T; v3z : T }.
Record Point2 (T : Type) : Type := mkP2 { p2x : T; p2y : T }.
Record Quaternion (T : Type) : Type := mkQuat { qw : T; qx : T; qy : T; qz : T }.
Record Plane (T : Type) : Type := mkPlane { normal : Vector3 T; offset : T }.

Arguments mkV3 {T}.
Arguments v3x {T}.
Arguments v3y {T}.
Arguments v3z {T}.
Arguments mkP2 {T}.
Arguments p2x {T}.
Arguments p2y {T}.
Arguments mkQuat {T}.
Arguments qw {T}.
Arguments qx {T}.
Arguments qy {T}.
Arguments qz {T}.
Arguments mkPlane {T}.
Arguments normal {T}.
Arguments offset {T}.

Section EigenOps.

Context {T : Type} `{Scalar T}.

Definition v3_sub (a b : Vector3 T) : Vector3 T :=
  mkV3 (ssub (v3x a) (v3x b)) (ssub (v3y a) (v3y b)) (ssub (v3z a) (v3z b)).

Definition p2_sub (a b : Point2 T) : Point2 T :=
  mkP2 (ssub (p2x a) (p2x b)) (ssub (p2y a) (p2y b)).

Definition v3_zero : Vector3 T := mkV3 (s_of_int 0) (s_of_int 0) (s_of_int 0).

Definition v3_dot (a b : Vector3 T) : T :=
  sadd (sadd (smul (v3x a) (v3x b)) (smul (v3y a) (v3y b))) (smul (v3z a) (v3z b)).

(** [v.norm ()]: the square root of the sum of squares. *)
Definition v3_norm (a : Vector3 T) : T := ssqrt (v3_dot a a).

Definition p2_norm (a : Point2 T) : T :=
  ssqrt (sadd (smul (p2x a) (p2x a)) (smul (p2y a) (p2y a))).

(** [plane.absDistance (p)]: [|normal . p + offset|]. *)
Definition absDistance (pl : Plane T) (p : Vector3 T) : T :=
  sabs (sadd (v3_dot (normal pl) p) (offset pl)).

End EigenOps.

(** ** Library collaborators

    Eigen, OpenCV, the pinhole and depth camera models and the polynomial
    helpers of [calibration_common] are outside the engine; they enter as the
    operations of a class. *)

Class Library (T : Type) : Type := {
  (** A rigid transform ([Eigen::Transform]). *)
  Pose : Type;
  (** [Translation3 (t) * AngleAxis (r.norm (), r.normalized ())]. *)
  pose_of_rotation_vector : Vector3 T → Vector3 T → Pose;
  (** [rotation.angle () * rotation.axis ()] of [AngleAxis (pose.linear ())]. *)
  rotation_vector_of_pose : Pose → Vector3 T;
  (** [Translation3 (t) * Quaternion (w, x, y, z)]. *)
  pose_of_quaternion : Quaternion T → Vector3 T → Pose;
  (** [Quaternion (pose.linear ())]. *)
  quaternion_of_pose : Pose → Quaternion T;
  (** [pose.translation ()]. *)
  translation_of_pose : Pose → Vector3 T;
  (** [pose * p]. *)
  pose_apply : Pose → Vector3 T → Vector3 T;
  (** [A.colPivHouseholderQr ().solve (b)], [A] given by rows. *)
  colPivHouseholderQr_solve : list (list T) → list T → list T;
  (** [cv::Mat]. *)
  cvMat : Type;
  PinholeCameraModel : Type;
  KinectDepthCameraModel : Type;
  (** [camera_model->project3dToPixel2 (p)]. *)
  project3dToPixel2 : PinholeCameraModel → Vector3 T → Point2 T;
  (** [camera_model->intrinsicMatrix () (r, c)]. *)
  intrinsicMatrix : KinectDepthCameraModel → nat → nat → T;
  (** [ceres::poly_eval (coefficients, x)]. *)
  poly_eval : list T → T → T;
  (** [MathTraits<GlobalPolynomial>::Degree] and [::MinDegree]. *)
  DEGREE : nat;
  MIN_DEGREE : nat;
  (** The local undistortion model, a grid of per-bin polynomials. *)
  LocalModel : Type;
  (** The sequence returned by successive calls of [rand ()]. *)
  rand : nat → Z
}.


Section Engine.


Context {T : Type} `{Scalar T} `{Library T}.

(** *** Sensors *)

Record PinholeSensor : Type := mkPinholeSensor {
  ps_parent : bool;                      (* [parent ()] is non-null *)
  ps_pose : Pose;
  ps_cameraModel : PinholeCameraModel
}.

Record KinectDepthSensor : Type := mkKinectDepthSensor {
  ds_pose : Pose;
  ds_cameraModel : KinectDepthCameraModel;
  ds_depthErrorFunction : list T         (* coefficients of a [Polynomial<Scalar, 2>] *)
}.

Definition setPose (s : PinholeSensor) (p : Pose) : PinholeSensor :=
  mkPinholeSensor (ps_parent s) p (ps_cameraModel s).

(** *** Checkerboards, frame records, views *)

Record Checkerboard : Type := mkCheckerboard {
  cb_corners : list (Vector3 T);
  cb_pose : Pose;
  cb_center : Vector3 T
}.

(** [checkerboard.size ()]: the number of corners. *)
Definition cb_size (cb : Checkerboard) : nat := length (cb_corners cb).

Record RGBDData : Type := mkRGBDData {
  rgbd_id : nat;
  rgbd_colorData : cvMat;
  rgbd_depthData : PCLCloud3
}.

Definition setDepthData (d : RGBDData) (c : PCLCloud3) : RGBDData :=
  mkRGBDData (rgbd_id d) (rgbd_colorData d) c.

(** A fitted depth plane with its inliers ([PlaneInfo]). *)
Record PlaneInfo : Type := mkPlaneInfo {
  pi_plane : Plane T;
  pi_indices : list nat;
  pi_std_dev : T
}.

Record CheckerboardViews : Type := mkViews {
  cv_id : string;
  cv_data : RGBDData;
  cv_checkerboard : Checkerboard;          (* [checkerboard ()] *)
  cv_colorCheckerboard : Checkerboard;     (* [colorCheckerboard ()] *)
  cv_colorView_points : list (Point2 T);   (* [colorView ()->points ()] *)
  cv_depthPlane : PlaneInfo;               (* [depthPlane ()] and [depthView ()] *)
}.

Definition setId (v : CheckerboardViews) (id : string) : CheckerboardViews :=
  mkViews id (cv_data v) (cv_checkerboard v) (cv_colorCheckerboard v)
    (cv_colorView_points v) (cv_depthPlane v).

Definition setData (v : CheckerboardViews) (d : RGBDData) : CheckerboardViews :=
  mkViews (cv_id v) d (cv_checkerboard v) (cv_colorCheckerboard v)
    (cv_colorView_points v) (cv_depthPlane v).

(** *** The undistortion estimator's per-frame data *)

Record DepthData : Type := mkDepthData {
  dd_cloud : PCLCloud3;
  dd_checkerboard : Checkerboard;
  dd_undistorted_cloud : PCLCloud3;
  dd_plane_extracted : bool;
  dd_estimated_plane : PlaneInfo
}.

(** The global undistortion model: a 2 by 2 grid of polynomials stored
    contiguously, cell [(x, y)] at offset [(x + 2 y) * SIZE]. *)
Record GlobalModel : Type := mkGlobalModel {
  gm_imageSize : nat * nat;
  gm_data : list T
}.

Record DepthUndistortionEstimation : Type := mkDUE {
  due_depth_error_function : list T;
  due_max_threads : Z;
  due_data : list nat                      (* the frames added, as heap handles *)
}.


(** ** The optimisation problems handed to Ceres *)


(** The functor of [TransformError] (lines 321-383). *)
Record TransformError : Type := mkTransformError {
  te_camera_model : PinholeCameraModel;
  te_checkerboard : Checkerboard;
  te_image_corners : list (Point2 T);
  te_depth_plane : Plane T;
  te_depth_error_function : list T
}.

(** The functor of [ReprojectionError] (lines 434-482). *)
Record ReprojectionError : Type := mkReprojectionError {
  re_camera_model : PinholeCameraModel;
  re_checkerboard : Checkerboard;
  re_image_corners : list (Point2 T)
}.

(** The functor of [TransformDistortionError] (lines 484-632). *)
Record TransformDistortionError : Type := mkTransformDistortionError {
  tde_camera_model : PinholeCameraModel;
  tde_depth_camera_model : KinectDepthCameraModel;
  tde_checkerboard : Checkerboard;
  tde_depth_points : PCLCloud3;
  tde_plane_indices : list nat;
  tde_depth_error_function : list T;
  tde_images_size : nat * nat
}.

(** A cost function: the functor and its number of residuals. *)
Inductive CostFunction : Type :=
  | TransformCostFunction (e : TransformError) (num_residuals : nat)
  | ReprojectionCostFunction (e : ReprojectionError) (num_residuals : nat)
  | TransformDistortionCostFunction (e : TransformDistortionError)
      (num_residuals : nat).

Inductive LossFunction : Type :=
  | CauchyLoss (a : T).

(** The memory a parameter block points to. *)
Inductive ParameterBlock : Type :=
  | transform_data (offset : nat)           (* [transform.data () + offset] *)
  | row_data (i : nat) (offset : nat)       (* [data.row (i).data () + offset] *)
  | global_dataPtr                          (* [global_matrix_->model ()->dataPtr ()] *)
  | delta_ptr.                              (* [delta] *)

Record ResidualBlock : Type := mkResidualBlock {
  rb_cost_function : CostFunction;
  rb_loss_function : option LossFunction;   (* [None] is [NULL] *)
  rb_parameter_blocks : list ParameterBlock
}.

Inductive LocalParameterization : Type :=
  | QuaternionParameterization.

Record Problem : Type := mkProblem {
  residual_blocks : list ResidualBlock;
  parameterizations : list (ParameterBlock * LocalParameterization)
}.

Definition empty_problem : Problem := mkProblem [] [].

Definition AddResidualBlock (p : Problem) (b : ResidualBlock) : Problem :=
  mkProblem (residual_blocks p ++ [b]) (parameterizations p).

Definition SetParameterization (p : Problem) (b : ParameterBlock)
    (l : LocalParameterization) : Problem :=
  mkProblem (residual_blocks p) (parameterizations p ++ [(b, l)]).

Inductive LinearSolverType : Type :=
  | SPARSE_SCHUR
  | SPARSE_NORMAL_CHOLESKY.

Record SolverOptions : Type := mkOptions {
  linear_solver_type : LinearSolverType;
  max_num_iterations : Z;
  minimizer_progress_to_stdout : bool;
  num_threads : Z
}.

(** The parameter memory a solve may read and write: the local [transform]
    row, the local per-view [data] matrix, and, where they are registered,
    the leading part of the global model's storage and [delta]. *)
Record ParameterMemory : Type := mkMemory {
  m_transform : list T;
  m_data : list (list T);
  m_global : list T;
  m_delta : list T
}.

(** *** The plane-based extrinsic calibration object *)

Inductive PlaneDatum : Type :=
  | ColorDatum (index : Z) (cb : Checkerboard)   (* [addData (index, color_sensor_, checkerboard)] *)
  | DepthDatum (index : Z) (plane : PlaneInfo).  (* [addData (index, depth_sensor_, plane)] *)

Record PlaneBasedExtrinsicCalibration : Type := mkPlaneCalib {
  pc_size : Z;
  pc_data : list PlaneDatum
}.

(** *** Calls to collaborators, in the order they are made *)

Inductive Call : Type :=
  | call_extract (frame : nat)
  | call_extractAll
  | call_addDepthData (view : nat)
  | call_estimateLocalModel
  | call_estimateLocalModelReverse
  | call_estimateGlobalModel
  | call_PlaneBasedExtrinsicCalibration_perform (calib : PlaneBasedExtrinsicCalibration)
  | call_ceres_Solve (options : SolverOptions) (problem : Problem).

(** *** The state of a [Calibration] object

    Shared pointers are [option]s, [None] being the null pointer. The model
    objects are owned here; the matrix wrappers and the estimator refer to
    them. [DepthData] objects live in [depth_data_heap] and are named by
    handles, both in [depth_data_vec_] and inside the estimator, so that what
    the estimator does to a frame's data is seen through [depth_data_vec_]. *)
Record Calibration : Type := mkCalibration {
  color_sensor_ : option PinholeSensor;
  depth_sensor_ : option KinectDepthSensor;
  cb_vec_ : list Checkerboard;
  estimate_depth_und_model_ : bool;
  estimate_initial_trasform_ : bool;
  ratio_ : Z;
  local_model_ : option LocalModel;
  global_model_ : option GlobalModel;
  local_matrix_ : bool;                    (* the wrapper of [local_model_] is set *)
  global_matrix_ : bool;                   (* the wrapper of [global_model_] is set *)
  depth_undistortion_estimation_ : option DepthUndistortionEstimation;
  data_vec_ : list RGBDData;
  cb_views_vec_ : list (option CheckerboardViews);
  depth_data_vec_ : list nat;
  depth_intrinsics_ : list T;
  (* the rest of the process *)
  depth_data_heap : nat → DepthData;
  heap_size : nat;                         (* handles allocated so far *)
  rand_calls : nat;                        (* how many times [rand ()] was called *)
  calls : list Call
}.

(** The objects the undistortion estimator works on. *)
Record UndistortionObjects : Type := mkObjects {
  uo_local_model : option LocalModel;
  uo_global_model : option GlobalModel;
  uo_depth_data : nat → DepthData
}.


(** ** Engine collaborators

    The checkerboard extractor, the undistortion estimator, the plane-based
    calibration and the Ceres solver are not part of the engine. *)

Class Collaborators : Type := {
  (** Detection of the checkerboards of [cb_vec] in one frame. *)
  detect : list Checkerboard → RGBDData → option CheckerboardViews;
  (** [extractAll (cb_views_vec)] with the extractor configured by the color
      sensor pose, the checkerboards and the frames. *)
  extractAll : Pose → list Checkerboard → list RGBDData →
               list (option CheckerboardViews) → list (option CheckerboardViews);
  (** [cb->transform (pose)]. *)
  checkerboard_transform : Checkerboard → Pose → Checkerboard;
  (** The object created by [addDepthData (cloud, cb)]. *)
  addDepthData : DepthUndistortionEstimation → PCLCloud3 → Checkerboard → DepthData;
  estimateLocalModel : DepthUndistortionEstimation → UndistortionObjects → UndistortionObjects;
  estimateLocalModelReverse : DepthUndistortionEstimation → UndistortionObjects → UndistortionObjects;
  estimateGlobalModel : DepthUndistortionEstimation → UndistortionObjects → UndistortionObjects;
  (** [cb_views.setPlaneInliers (plane_info)] and
      [cb_views.setPlaneInliers (indices, std_dev)]. *)
  setPlaneInliers : CheckerboardViews → PlaneInfo → CheckerboardViews;
  setPlaneInliers2 : CheckerboardViews → list nat → T → CheckerboardViews;
  (** [calib.perform ()]: the sensors after the plane-based calibration. *)
  PlaneBasedExtrinsicCalibration_perform :
    PlaneBasedExtrinsicCalibration → PinholeSensor → KinectDepthSensor →
    PinholeSensor * KinectDepthSensor;
  (** [ceres::Solve (options, &problem, &summary)]: the parameter memory
      after the solve. *)
  ceres_Solve : SolverOptions → Problem → ParameterMemory → ParameterMemory
}.

Context `{!Collaborators}.


(** *** Field updates *)

Definition with_color_sensor_ (s : Calibration) (x : option PinholeSensor) : Calibration :=
  mkCalibration x (depth_sensor_ s) (cb_vec_ s) (estimate_depth_und_model_ s)
    (estimate_initial_trasform_ s) (ratio_ s) (local_model_ s) (global_model_ s)
    (local_matrix_ s) (global_matrix_ s) (depth_undistortion_estimation_ s)
    (data_vec_ s) (cb_views_vec_ s) (depth_data_vec_ s) (depth_intrinsics_ s)
    (depth_data_heap s) (heap_size s) (rand_calls s) (calls s).

Definition with_depth_sensor_ (s : Calibration) (x : option KinectDepthSensor) : Calibration :=
  mkCalibration (color_sensor_ s) x (cb_vec_ s) (estimate_depth_und_model_ s)
    (estimate_initial_trasform_ s) (ratio_ s) (local_model_ s) (global_model_ s)
    (local_matrix_ s) (global_matrix_ s) (depth_undistortion_estimation_ s)
    (data_vec_ s) (cb_views_vec_ s) (depth_data_vec_ s) (depth_intrinsics_ s)
    (depth_data_heap s) (heap_size s) (rand_calls s) (calls s).

Definition with_cb_vec_ (s : Calibration) (x : list Checkerboard) : Calibration :=
  mkCalibration (color_sensor_ s) (depth_sensor_ s) x (estimate_depth_und_model_ s)
    (estimate_initial_trasform_ s) (ratio_ s) (local_model_ s) (global_model_ s)
    (local_matrix_ s) (global_matrix_ s) (depth_undistortion_estimation_ s)
    (data_vec_ s) (cb_views_vec_ s) (depth_data_vec_ s) (depth_intrinsics_ s)
    (depth_data_heap s) (heap_size s) (rand_calls s) (calls s).

Definition with_estimate_depth_und_model_ (s : Calibration) (x : bool) : Calibration :=
  mkCalibration (color_sensor_ s) (depth_sensor_ s) (cb_vec_ s) x
    (estimate_initial_trasform_ s) (ratio_ s) (local_model_ s) (global_model_ s)
    (local_matrix_ s) (global_matrix_ s) (depth_undistortion_estimation_ s)
    (data_vec_ s) (cb_views_vec_ s) (depth_data_vec_ s) (depth_intrinsics_ s)
    (depth_data_heap s) (heap_size s) (rand_calls s) (calls s).

Definition with_estimate_initial_trasform_ (s : Calibration) (x : bool) : Calibration :=
  mkCalibration (color_sensor_ s) (depth_sensor_ s) (cb_vec_ s)
    (estimate_depth_und_model_ s) x (ratio_ s) (local_model_ s) (global_model_ s)
    (local_matrix_ s) (global_matrix_ s) (depth_undistortion_estimation_ s)
    (data_vec_ s) (cb_views_vec_ s) (depth_data_vec_ s) (depth_intrinsics_ s)
    (depth_data_heap s) (heap_size s) (rand_calls s) (calls s).

Definition with_ratio_ (s : Calibration) (x : Z) : Calibration :=
  mkCalibration (color_sensor_ s) (depth_sensor_ s) (cb_vec_ s)
    (estimate_depth_und_model_ s) (estimate_initial_trasform_ s) x (local_model_ s)
    (global_model_ s) (local_matrix_ s) (global_matrix_ s)
    (depth_undistortion_estimation_ s) (data_vec_ s) (cb_views_vec_ s)
    (depth_data_vec_ s) (depth_intrinsics_ s) (depth_data_heap s) (heap_size s)
    (rand_calls s) (calls s).

Definition with_local_model_ (s : Calibration) (x : option LocalModel) : Calibration :=
  mkCalibration (color_sensor_ s) (depth_sensor_ s) (cb_vec_ s)
    (estimate_depth_und_model_ s) (estimate_initial_trasform_ s) (ratio_ s) x
    (global_model_ s) (local_matrix_ s) (global_matrix_ s)
    (depth_undistortion_estimation_ s) (data_vec_ s) (cb_views_vec_ s)
    (depth_data_vec_ s) (depth_intrinsics_ s) (depth_data_heap s) (heap_size s)
    (rand_calls s) (calls s).

Definition with_global_model_ (s : Calibration) (x : option GlobalModel) : Calibration :=
  mkCalibration (color_sensor_ s) (depth_sensor_ s) (cb_vec_ s)
    (estimate_depth_und_model_ s) (estimate_initial_trasform_ s) (ratio_ s)
    (local_model_ s) x (local_matrix_ s) (global_matrix_ s)
    (depth_undistortion_estimation_ s) (data_vec_ s) (cb_views_vec_ s)
    (depth_data_vec_ s) (depth_intrinsics_ s) (depth_data_heap s) (heap_size s)
    (rand_calls s) (calls s).

Definition with_local_matrix_ (s : Calibration) (x : bool) : Calibration :=
  mkCalibration (color_sensor_ s) (depth_sensor_ s) (cb_vec_ s)
    (estimate_depth_und_model_ s) (estimate_initial_trasform_ s) (ratio_ s)
    (local_model_ s) (global_model_ s) x (global_matrix_ s)
    (depth_undistortion_estimation_ s) (data_vec_ s) (cb_views_vec_ s)
    (depth_data_vec_ s) (depth_intrinsics_ s) (depth_data_heap s) (heap_size s)
    (rand_calls s) (calls s).

Definition with_global_matrix_ (s : Calibration) (x : bool) : Calibration :=
  mkCalibration (color_sensor_ s) (depth_sensor_ s) (cb_vec_ s)
    (estimate_depth_und_model_ s) (estimate_initial_trasform_ s) (ratio_ s)
    (local_model_ s) (global_model_ s) (local_matrix_ s) x
    (depth_undistortion_estimation_ s) (data_vec_ s) (cb_views_vec_ s)
    (depth_data_vec_ s) (depth_intrinsics_ s) (depth_data_heap s) (heap_size s)
    (rand_calls s) (calls s).

Definition with_depth_undistortion_estimation_ (s : Calibration) (x : option DepthUndistortionEstimation) : Calibration :=
  mkCalibration (color_sensor_ s) (depth_sensor_ s) (cb_vec_ s)
    (estimate_depth_und_model_ s) (estimate_initial_trasform_ s) (ratio_ s)
    (local_model_ s) (global_model_ s) (local_matrix_ s) (global_matrix_ s) x
    (data_vec_ s) (cb_views_vec_ s) (depth_data_vec_ s) (depth_intrinsics_ s)
    (depth_data_heap s) (heap_size s) (rand_calls s) (calls s).

Definition with_data_vec_ (s : Calibration) (x : list RGBDData) : Calibration :=
  mkCalibration (color_sensor_ s) (depth_sensor_ s) (cb_vec_ s)
    (estimate_depth_und_model_ s) (estimate_initial_trasform_ s) (ratio_ s)
    (local_model_ s) (global_model_ s) (local_matrix_ s) (global_matrix_ s)
    (depth_undistortion_estimation_ s) x (cb_views_vec_ s) (depth_data_vec_ s)
    (depth_intrinsics_ s) (depth_data_heap s) (heap_size s) (rand_calls s) (calls s).

Definition with_cb_views_vec_ (s : Calibration) (x : list (option CheckerboardViews)) : Calibration :=
  mkCalibration (color_sensor_ s) (depth_sensor_ s) (cb_vec_ s)
    (estimate_depth_und_model_ s) (estimate_initial_trasform_ s) (ratio_ s)
    (local_model_ s) (global_model_ s) (local_matrix_ s) (global_matrix_ s)
    (depth_undistortion_estimation_ s) (data_vec_ s) x (depth_data_vec_ s)
    (depth_intrinsics_ s) (depth_data_heap s) (heap_size s) (rand_calls s) (calls s).

Definition with_depth_data_vec_ (s : Calibration) (x : list nat) : Calibration :=
  mkCalibration (color_sensor_ s) (depth_sensor_ s) (cb_vec_ s)
    (estimate_depth_und_model_ s) (estimate_initial_trasform_ s) (ratio_ s)
    (local_model_ s) (global_model_ s) (local_matrix_ s) (global_matrix_ s)
    (depth_undistortion_estimation_ s) (data_vec_ s) (cb_views_vec_ s) x
    (depth_intrinsics_ s) (depth_data_heap s) (heap_size s) (rand_calls s) (calls s).

Definition with_depth_intrinsics_ (s : Calibration) (x : list T) : Calibration :=
  mkCalibration (color_sensor_ s) (depth_sensor_ s) (cb_vec_ s)
    (estimate_depth_und_model_ s) (estimate_initial_trasform_ s) (ratio_ s)
    (local_model_ s) (global_model_ s) (local_matrix_ s) (global_matrix_ s)
    (depth_undistortion_estimation_ s) (data_vec_ s) (cb_views_vec_ s)
    (depth_data_vec_ s) x (depth_data_heap s) (heap_size s) (rand_calls s) (calls s).

Definition with_depth_data_heap (s : Calibration) (x : nat → DepthData) : Calibration :=
  mkCalibration (color_sensor_ s) (depth_sensor_ s) (cb_vec_ s)
    (estimate_depth_und_model_ s) (estimate_initial_trasform_ s) (ratio_ s)
    (local_model_ s) (global_model_ s) (local_matrix_ s) (global_matrix_ s)
    (depth_undistortion_estimation_ s) (data_vec_ s) (cb_views_vec_ s)
    (depth_data_vec_ s) (depth_intrinsics_ s) x (heap_size s) (rand_calls s) (calls s).

Definition with_heap_size (s : Calibration) (x : nat) : Calibration :=
  mkCalibration (color_sensor_ s) (depth_sensor_ s) (cb_vec_ s)
    (estimate_depth_und_model_ s) (estimate_initial_trasform_ s) (ratio_ s)
    (local_model_ s) (global_model_ s) (local_matrix_ s) (global_matrix_ s)
    (depth_undistortion_estimation_ s) (data_vec_ s) (cb_views_vec_ s)
    (depth_data_vec_ s) (depth_intrinsics_ s) (depth_data_heap s) x (rand_calls s)
    (calls s).

Definition with_rand_calls (s : Calibration) (x : nat) : Calibration :=
  mkCalibration (color_sensor_ s) (depth_sensor_ s) (cb_vec_ s)
    (estimate_depth_und_model_ s) (estimate_initial_trasform_ s) (ratio_ s)
    (local_model_ s) (global_model_ s) (local_matrix_ s) (global_matrix_ s)
    (depth_undistortion_estimation_ s) (data_vec_ s) (cb_views_vec_ s)
    (depth_data_vec_ s) (depth_intrinsics_ s) (depth_data_heap s) (heap_size s) x
    (calls s).

Definition with_calls (s : Calibration) (x : list Call) : Calibration :=
  mkCalibration (color_sensor_ s) (depth_sensor_ s) (cb_vec_ s)
    (estimate_depth_und_model_ s) (estimate_initial_trasform_ s) (ratio_ s)
    (local_model_ s) (global_model_ s) (local_matrix_ s) (global_matrix_ s)
    (depth_undistortion_estimation_ s) (data_vec_ s) (cb_views_vec_ s)
    (depth_data_vec_ s) (depth_intrinsics_ s) (depth_data_heap s) (heap_size s)
    (rand_calls s) x.

Definition log (c : Call) (s : Calibration) : Calibration :=
  with_calls s (calls s ++ [c]).

(** ** Vectors in parameter memory *)

(** [a[i]] on raw parameter memory. *)
Definition coeff (l : list T) (i : nat) : T := default (s_of_int 0) (l !! i).

Definition head3 (l : list T) : Vector3 T := mkV3 (coeff l 0) (coeff l 1) (coeff l 2).

(** [.tail<3> ()] of a row of [n] scalars. *)
Definition tail3 (n : nat) (l : list T) : Vector3 T :=
  mkV3 (coeff l (n - 3)) (coeff l (n - 2)) (coeff l (n - 1)).

Definition v3_list (a : Vector3 T) : list T := [v3x a; v3y a; v3z a].

Definition quaternion_list (q : Quaternion T) : list T := [qw q; qx q; qy q; qz q].

(** Writing the first [n] scalars of [src] over the start of [dst]. *)
Definition copy_block (n : nat) (src dst : list T) : list T :=
  take n src ++ drop (length (take n src)) dst.

(** ** [calibration.h] *)

(** [assert (ratio > 0); ratio_ = ratio;] *)
Definition setDownSampleRatio (ratio : Z) (s : Calibration) : option Calibration :=
  if decide (0 < ratio)%Z then Some (with_ratio_ s ratio) else None.

Definition setLocalModel (model : option LocalModel) (s : Calibration) : Calibration :=
  with_local_matrix_ (with_local_model_ s model) true.

Definition setGlobalModel (model : option GlobalModel) (s : Calibration) : Calibration :=
  with_global_matrix_ (with_global_model_ s model) true.

Definition setEstimateInitialTransform (b : bool) (s : Calibration) : Calibration :=
  with_estimate_initial_trasform_ s b.

Definition addCheckerboardViews (v : option CheckerboardViews) (s : Calibration)
  : Calibration := with_cb_views_vec_ s (cb_views_vec_ s ++ [v]).

Definition setColorSensor (cs : option PinholeSensor) (s : Calibration) : Calibration :=
  with_color_sensor_ s cs.

Definition setDepthSensor (depth_sensor : option KinectDepthSensor) (s : Calibration)
  : option Calibration :=
  ds ← depth_sensor;
  let K := intrinsicMatrix (ds_cameraModel ds) in
  Some (with_depth_intrinsics_ (with_depth_sensor_ s depth_sensor)
          [K 0 0; K 1 1; K 0 2; K 1 2]).

(** [assert (local_matrix_ and global_matrix_);] then the estimator is
    created and configured. *)
Definition initDepthUndistortionModel (s : Calibration) : option Calibration :=
  if local_matrix_ s && global_matrix_ s then
    let s := with_estimate_depth_und_model_ s true in
    ds ← depth_sensor_ s;
    Some (with_depth_undistortion_estimation_ s
            (Some (mkDUE (ds_depthErrorFunction ds) 8 [])))
  else None.

(** ** [Calibration::addData_] and [addData] *)

Definition addData_ (image : cvMat) (cloud : PCLCloud3) (vec : list RGBDData)
    (s : Calibration) : option (list RGBDData) :=
  depth ← addData_depth (ratio_ s) cloud;
  Some (vec ++ [mkRGBDData (length (data_vec_ s) + 1) image depth]).

Definition addData (image : cvMat) (cloud : PCLCloud3) (s : Calibration)
  : option Calibration :=
  vec ← addData_ image cloud (data_vec_ s) s;
  Some (with_data_vec_ s vec).

(** ** [CheckerboardDistanceConstraint] *)

Record CheckerboardDistanceConstraint : Type := mkDistanceConstraint {
  distance_ : T;
  from_ : Vector3 T
}.

(** [(checkerboard.center () - from_).norm () <= distance_] *)
Definition isValid (c : CheckerboardDistanceConstraint) (checkerboard : Checkerboard)
  : bool := sleb (v3_norm (v3_sub (cb_center checkerboard) (from_ c))) (distance_ c).

(** Modelled from the spec: [CheckerboardViewsExtraction::extract] is in
    [checkerboard_views_extractor.cpp], which is missing. Section 6: given a
    frame record and a proximity constraint the extractor yields zero or one
    view; the view is appended when its detected checkerboard satisfies the
    constraint. *)
Definition extract (cb_vec : list Checkerboard)
    (constraint : CheckerboardDistanceConstraint) (data : RGBDData)
    (cb_views_vec : list (option CheckerboardViews))
  : list (option CheckerboardViews) :=
  match detect cb_vec data with
  | Some v =>
      if isValid constraint (cv_colorCheckerboard v)
      then cb_views_vec ++ [Some v] else cb_views_vec
  | None => cb_views_vec
  end.

(** ** [Calibration::estimateTransform] (lines 299-319) *)

Definition estimateTransform_step (cb_views_vec : list (option CheckerboardViews))
    (i : nat) (st : PlaneBasedExtrinsicCalibration * Z)
  : option (PlaneBasedExtrinsicCalibration * Z) :=
  let '(calib, index) := st in
  v ← cb_views_vec !! i;
  match v with
  | Some view =>
      let calib := mkPlaneCalib (pc_size calib)
        (pc_data calib ++ [ColorDatum index (cv_colorCheckerboard view);
                           DepthDatum index (cv_depthPlane view)]) in
      Some (calib, (index + 1)%Z)
  | None => Some st
  end.

Definition estimateTransform (cb_views_vec : list (option CheckerboardViews))
    (s : Calibration) : option Calibration :=
  let calib := mkPlaneCalib (Z.of_nat (length cb_views_vec)) [] in
  '(calib, index) ←
    for_loop (length cb_views_vec) (estimateTransform_step cb_views_vec) (calib, 0%Z);
  let calib := mkPlaneCalib index (pc_data calib) in
  cs ← color_sensor_ s;
  ds ← depth_sensor_ s;
  let '(cs', ds') := PlaneBasedExtrinsicCalibration_perform calib cs ds in
  Some (log (call_PlaneBasedExtrinsicCalibration_perform calib)
          (with_depth_sensor_ (with_color_sensor_ s (Some cs')) (Some ds'))).

(** ** [Calibration::estimateInitialTransform] (lines 280-297) *)

Definition estimateInitialTransform_step (s0 : Calibration)
    (constraint : CheckerboardDistanceConstraint) (i : nat)
    (st : list (option CheckerboardViews) * nat * list Call)
  : option (list (option CheckerboardViews) * nat * list Call) :=
  let '(cb_views_vec, n_rand, cl) := st in
  let index := Z.to_nat (rand n_rand `mod` Z.of_nat (length (data_vec_ s0))) in
  data ← data_vec_ s0 !! index;
  Some (extract (cb_vec_ s0) constraint data cb_views_vec, S n_rand,
        cl ++ [call_extract index]).

Definition initial_views (s : Calibration)
  : option (list (option CheckerboardViews) * nat * list Call) :=
  let constraint := mkDistanceConstraint (s_of_int 2) v3_zero in
  for_while (length (data_vec_ s)) (λ st, bool_decide (length st.1.1 < 10))
    (estimateInitialTransform_step s constraint) ([], rand_calls s, calls s).

Definition estimateInitialTransform (s : Calibration) : option Calibration :=
  '(cb_views_vec, n_rand, cl) ← initial_views s;
  estimateTransform cb_views_vec (with_calls (with_rand_calls s n_rand) cl).


(** ** [Calibration::perform] (lines 189-278) *)

(** Lines 206-212: one [DepthData] object per view. *)
Definition perform_addDepthData (i : nat) (s : Calibration) : option Calibration :=
  v ← cb_views_vec_ s !! i;
  cb_views ← v;
  cs ← color_sensor_ s;
  let cb := checkerboard_transform (cv_colorCheckerboard cb_views) (ps_pose cs) in
  due ← depth_undistortion_estimation_ s;
  let obj := addDepthData due (rgbd_depthData (cv_data cb_views)) cb in
  let handle := heap_size s in
  let s := with_depth_data_heap s
             (λ h, if decide (h = handle) then obj else depth_data_heap s h) in
  let s := with_heap_size s (S handle) in
  let s := with_depth_undistortion_estimation_ s
             (Some (mkDUE (due_depth_error_function due) (due_max_threads due)
                      (due_data due ++ [handle]))) in
  let s := with_depth_data_vec_ s (depth_data_vec_ s ++ [handle]) in
  Some (log (call_addDepthData i) s).

(** One phase of the undistortion estimator, acting on the shared objects. *)
Definition run_phase
    (phase : DepthUndistortionEstimation → UndistortionObjects → UndistortionObjects)
    (c : Call) (s : Calibration) : option Calibration :=
  due ← depth_undistortion_estimation_ s;
  let o := phase due (mkObjects (local_model_ s) (global_model_ s) (depth_data_heap s)) in
  Some (log c (with_depth_data_heap
                 (with_global_model_ (with_local_model_ s (uo_local_model o))
                    (uo_global_model o))
                 (uo_depth_data o))).

(** Lines 221-228: keep the views whose plane was extracted, drop the others. *)
Definition perform_keep_or_reset (i : nat) (s : Calibration) : option Calibration :=
  v ← cb_views_vec_ s !! i;
  cb_views ← v;
  handle ← depth_data_vec_ s !! i;
  let depth_data := depth_data_heap s handle in
  if dd_plane_extracted depth_data then
    Some (with_cb_views_vec_ s
            (<[i := Some (setPlaneInliers cb_views (dd_estimated_plane depth_data))]>
               (cb_views_vec_ s)))
  else
    Some (with_cb_views_vec_ s (<[i := None]> (cb_views_vec_ s))).

(** Lines 197-228, the [estimate_depth_und_model_] branch. *)
Definition perform_undistortion (s : Calibration) : option Calibration :=
  cs ← color_sensor_ s;
  let s := log call_extractAll
             (with_cb_views_vec_ s
                (extractAll (ps_pose cs) (cb_vec_ s) (data_vec_ s) (cb_views_vec_ s))) in
  s ← for_loop (length (cb_views_vec_ s)) perform_addDepthData s;
  s ← run_phase estimateLocalModel call_estimateLocalModel s;
  s ← run_phase estimateLocalModelReverse call_estimateLocalModelReverse s;
  s ← run_phase estimateGlobalModel call_estimateGlobalModel s;
  for_loop (length (cb_views_vec_ s)) perform_keep_or_reset s.

(** Lines 192-193. *)
Definition perform_initial (s : Calibration) : option Calibration :=
  initial ←
    (if estimate_initial_trasform_ s then Some true
     else cs ← color_sensor_ s; Some (negb (ps_parent cs)));
  if initial : bool then estimateInitialTransform s else Some s.

Definition perform (s : Calibration) : option Calibration :=
  s ← perform_initial s;
  s ← (if estimate_depth_und_model_ s then perform_undistortion s else Some s);
  estimateTransform (cb_views_vec_ s) s.

(** ** [TransformError::operator ()] (lines 338-373) *)

Definition TransformError_residual (e : TransformError)
    (reprojected_corners : list (Point2 T)) (cb_corners : list (Vector3 T))
    (i : nat) (residuals : list T) : option (list T) :=
  reprojected ← reprojected_corners !! i;
  image_corner ← te_image_corners e !! i;
  corner ← cb_corners !! i;
  let residuals :=
    <[2 * i := sdiv (p2_norm (p2_sub reprojected image_corner)) s_half]> residuals in
  Some (<[2 * i + 1 :=
            sdiv (absDistance (te_depth_plane e) corner)
                 (poly_eval (te_depth_error_function e) (v3z corner))]> residuals).

(** The residuals written into the array [residuals], which holds
    [num_residuals] scalars. *)
Definition TransformError_call (e : TransformError)
    (color_sensor_pose checkerboard_pose : list T) (residuals : list T)
  : option (list T) :=
  let color_sensor_pose_eigen :=
    pose_of_rotation_vector (head3 color_sensor_pose) (tail3 6 color_sensor_pose) in
  let checkerboard_pose_eigen :=
    pose_of_rotation_vector (head3 checkerboard_pose) (tail3 6 checkerboard_pose) in
  let cb_corners :=
    pose_apply checkerboard_pose_eigen <$> cb_corners (te_checkerboard e) in
  let reprojected_corners := project3dToPixel2 (te_camera_model e) <$> cb_corners in
  let cb_corners := pose_apply color_sensor_pose_eigen <$> cb_corners in
  for_loop (length cb_corners)
    (TransformError_residual e reprojected_corners cb_corners) residuals.

(** ** [ReprojectionError::operator ()] (lines 456-475) *)

(** The 2 by n matrix expression assigned to [residual_map], column [i]. *)
Definition ReprojectionError_column (n : nat) (reprojected image_corner : Point2 T)
  : Point2 T :=
  let d := p2_sub reprojected image_corner in
  let k := smul s_half (ssqrt (s_of_int (Z.of_nat n))) in
  mkP2 (sdiv (p2x d) k) (sdiv (p2y d) k).

Definition ReprojectionError_store (e : ReprojectionError)
    (reprojected_corners : list (Point2 T)) (i : nat) (residuals : list T)
  : option (list T) :=
  reprojected ← reprojected_corners !! i;
  image_corner ← re_image_corners e !! i;
  let c := ReprojectionError_column (length reprojected_corners) reprojected image_corner in
  Some (<[2 * i + 1 := p2y c]> (<[2 * i := p2x c]> residuals)).

Definition ReprojectionError_call (e : ReprojectionError)
    (checkerboard_pose_q checkerboard_pose_t : list T) (residuals : list T)
  : option (list T) :=
  let checkerboard_pose_eigen :=
    pose_of_quaternion
      (mkQuat (coeff checkerboard_pose_q 0) (coeff checkerboard_pose_q 1)
              (coeff checkerboard_pose_q 2) (coeff checkerboard_pose_q 3))
      (head3 checkerboard_pose_t) in
  let cb_corners :=
    pose_apply checkerboard_pose_eigen <$> cb_corners (re_checkerboard e) in
  let reprojected_corners := project3dToPixel2 (re_camera_model e) <$> cb_corners in
  if decide (length (re_image_corners e) = length reprojected_corners) then
    for_loop (length cb_corners) (ReprojectionError_store e reprojected_corners) residuals
  else None.

(** ** [Calibration::optimizeTransform] (lines 385-432) *)

Definition pose_row6 (p : Pose) : list T :=
  v3_list (rotation_vector_of_pose p) ++ v3_list (translation_of_pose p).

Definition optimizeTransform_step (s : Calibration)
    (cb_views_vec : list (option CheckerboardViews)) (i : nat)
    (st : Problem * list (list T)) : option (Problem * list (list T)) :=
  let '(problem, data) := st in
  v ← cb_views_vec !! i;
  cb_views ← v;
  let data := <[i := pose_row6 (cb_pose (cv_colorCheckerboard cb_views))]> data in
  cs ← color_sensor_ s;
  ds ← depth_sensor_ s;
  let error :=
    mkTransformError (ps_cameraModel cs) (cv_checkerboard cb_views)
      (cv_colorView_points cb_views) (pi_plane (cv_depthPlane cb_views))
      (ds_depthErrorFunction ds) in
  let cost_function :=
    TransformCostFunction error (2 * cb_size (cv_checkerboard cb_views)) in
  Some (AddResidualBlock problem
          (mkResidualBlock cost_function (Some (CauchyLoss (s_of_int 1)))
             [transform_data 0; row_data i 0]),
        data).

Definition optimizeTransform_options : SolverOptions :=
  mkOptions SPARSE_SCHUR 100 true 8.

(** The problem and the parameter memory built before the solve. *)
Definition optimizeTransform_problem (cb_views_vec : list (option CheckerboardViews))
    (s : Calibration) : option (Problem * ParameterMemory) :=
  let data := replicate (length cb_views_vec) (replicate 6 (s_of_int 0)) in
  cs ← color_sensor_ s;
  let transform := pose_row6 (ps_pose cs) in
  '(problem, data) ←
    for_loop (length cb_views_vec) (optimizeTransform_step s cb_views_vec)
      (empty_problem, data);
  Some (problem, mkMemory transform data [] []).

Definition optimizeTransform (cb_views_vec : list (option CheckerboardViews))
    (s : Calibration) : option Calibration :=
  '(problem, memory) ← optimizeTransform_problem cb_views_vec s;
  let options := optimizeTransform_options in
  let memory := ceres_Solve options problem memory in
  let s := log (call_ceres_Solve options problem) s in
  let transform := m_transform memory in
  cs ← color_sensor_ s;
  Some (with_color_sensor_ s
          (Some (setPose cs (pose_of_rotation_vector (head3 transform) (tail3 6 transform))))).


(** ** The global model's polynomials *)

(** [SIZE = DEGREE - MIN_DEGREE + 1] (line 733). *)
Definition SIZE : nat := DEGREE - MIN_DEGREE + 1.

(** [model->polynomial (x, y)]: the coefficients of cell [(x, y)]. *)
Definition polynomial (m : GlobalModel) (x y : nat) : list T :=
  (λ j, coeff (gm_data m) ((x + 2 * y) * SIZE + j)) <$> seq 0 SIZE.

(** [model->polynomial (x, y) = c]. *)
Definition set_polynomial (m : GlobalModel) (x y : nat) (c : list T) : GlobalModel :=
  mkGlobalModel (gm_imageSize m)
    (foldl (λ d j, <[(x + 2 * y) * SIZE + j := coeff c j]> d) (gm_data m) (seq 0 SIZE)).

(** [tmp *= x], [n] times. *)
Definition times_x (x : T) (n : nat) (tmp : T) : T :=
  Nat.iter n (λ tmp, smul tmp x) tmp.

(** Modelled from the spec: [GlobalPolynomial::evaluate] is in
    [calibration_common], which is missing. A polynomial of degrees
    [MIN_DEGREE] to [DEGREE] over its coefficient vector:
    the sum of [c[j] * x^(MIN_DEGREE + j)]. *)
Definition evaluate (c : list T) (x : T) : T :=
  foldr (λ j acc, sadd (smul (coeff c j) (times_x x (MIN_DEGREE + j) (s_of_int 1))) acc)
    (s_of_int 0) (seq 0 SIZE).

(** Lines 746-753: row [i] of [A], the monomials at [x]. *)
Fixpoint monomial_row (tmp x : T) (n : nat) : list T :=
  match n with
  | O => []
  | S n' => tmp :: monomial_row (smul tmp x) x n'
  end.

(** Lines 740-755: the system [A x = b] of the fourth cell. *)
Definition continuity_system (p1 p2 p3 : list T) : list (list T) * list T :=
  let xs := (λ i, s_of_int (Z.of_nat i + 1)) <$> seq 0 SIZE in
  ((λ x, monomial_row (times_x x MIN_DEGREE (s_of_int 1)) x SIZE) <$> xs,
   (λ x, ssub (sadd (evaluate p2 x) (evaluate p3 x)) (evaluate p1 x)) <$> xs).

(** Lines 736-759: the fourth cell is solved from the other three. *)
Definition solve_fourth_cell (m : GlobalModel) : GlobalModel :=
  let p1 := polynomial m 0 0 in
  let p2 := polynomial m 0 1 in
  let p3 := polynomial m 1 0 in
  let '(A, b) := continuity_system p1 p2 p3 in
  set_polynomial m 1 1 (colPivHouseholderQr_solve A b).

(** ** [Calibration::optimizeAll] (lines 639-766) *)

Definition pose_row7 (p : Pose) : list T :=
  quaternion_list (quaternion_of_pose p) ++ v3_list (translation_of_pose p).

Definition optimizeAll_step (s : Calibration)
    (cb_views_vec : list (option CheckerboardViews)) (i : nat)
    (st : Problem * list (list T)) : option (Problem * list (list T)) :=
  let '(problem, data) := st in
  v ← cb_views_vec !! i;
  cb_views ← v;
  let data := <[i := pose_row7 (cb_pose (cv_colorCheckerboard cb_views))]> data in
  cs ← color_sensor_ s;
  ds ← depth_sensor_ s;
  gm ← global_model_ s;
  let error :=
    mkTransformDistortionError (ps_cameraModel cs) (ds_cameraModel ds)
      (cv_checkerboard cb_views) (rgbd_depthData (cv_data cb_views))
      (pi_indices (cv_depthPlane cb_views)) (ds_depthErrorFunction ds)
      (gm_imageSize gm) in
  let cost_function :=
    TransformDistortionCostFunction error
      (3 * length (pi_indices (cv_depthPlane cb_views))) in
  if global_matrix_ s then
    let problem :=
      AddResidualBlock problem
        (mkResidualBlock cost_function None
           [transform_data 0; transform_data 4; global_dataPtr;
            row_data i 0; row_data i 4; delta_ptr]) in
    let repr_error :=
      mkReprojectionError (ps_cameraModel cs) (cv_checkerboard cb_views)
        (cv_colorView_points cb_views) in
    let repr_cost_function :=
      ReprojectionCostFunction repr_error (2 * cb_size (cv_checkerboard cb_views)) in
    let problem :=
      AddResidualBlock problem
        (mkResidualBlock repr_cost_function None [row_data i 0; row_data i 4]) in
    Some (SetParameterization problem (row_data i 0) QuaternionParameterization, data)
  else None.

Definition optimizeAll_options : SolverOptions :=
  mkOptions SPARSE_NORMAL_CHOLESKY 20 true 8.

(** The problem built by the loop over the views (lines 642-712). *)
Definition optimizeAll_problem (cb_views_vec : list (option CheckerboardViews))
    (s : Calibration) : option (Problem * list (list T)) :=
  let data := replicate (length cb_views_vec) (replicate 7 (s_of_int 0)) in
  '(problem, data) ←
    for_loop (length cb_views_vec) (optimizeAll_step s cb_views_vec)
      (empty_problem, data);
  Some (SetParameterization problem (transform_data 0) QuaternionParameterization, data).

(** Lines 762-765. *)
Definition apply_delta (depth_intrinsics delta : list T) : option (list T) :=
  fx ← depth_intrinsics !! 0;
  let depth_intrinsics := <[0 := smul fx (coeff delta 0)]> depth_intrinsics in
  fy ← depth_intrinsics !! 1;
  let depth_intrinsics := <[1 := smul fy (coeff delta 1)]> depth_intrinsics in
  cx ← depth_intrinsics !! 2;
  let depth_intrinsics := <[2 := sadd cx (coeff delta 2)]> depth_intrinsics in
  cy ← depth_intrinsics !! 3;
  Some (<[3 := sadd cy (coeff delta 3)]> depth_intrinsics).

Definition optimizeAll (cb_views_vec : list (option CheckerboardViews))
    (s : Calibration) : option Calibration :=
  cs ← color_sensor_ s;
  let transform := pose_row7 (ps_pose cs) in
  let delta := [s_of_int 1; s_of_int 1; s_of_int 0; s_of_int 0] in
  '(problem, data) ← optimizeAll_problem cb_views_vec s;
  let options := optimizeAll_options in
  gm ← global_model_ s;
  let memory :=
    ceres_Solve options problem
      (mkMemory transform data (take (3 * SIZE) (gm_data gm)) delta) in
  let s := log (call_ceres_Solve options problem) s in
  let gm := mkGlobalModel (gm_imageSize gm)
              (copy_block (3 * SIZE) (m_global memory) (gm_data gm)) in
  let transform := m_transform memory in
  let delta := m_delta memory in
  let rotation := mkQuat (coeff transform 0) (coeff transform 1)
                         (coeff transform 2) (coeff transform 3) in
  let s := with_color_sensor_ s
             (Some (setPose cs (pose_of_quaternion rotation (tail3 7 transform)))) in
  if global_matrix_ s then
    let s := with_global_model_ s (Some (solve_fourth_cell gm)) in
    _ ← depth_sensor_ s;
    depth_intrinsics ← apply_delta (depth_intrinsics_ s) delta;
    Some (with_depth_intrinsics_ s depth_intrinsics)
  else None.

(** ** [Calibration::optimize] (lines 768-853) *)

(** Body of the loop at lines 779-807. The iterations of the parallel loop
    are taken in index order. *)
Definition optimize_copy (s : Calibration) (i : nat)
    (und_cb_views_vec : list (option CheckerboardViews))
  : option (list (option CheckerboardViews)) :=
  v ← cb_views_vec_ s !! i;
  match v with
  | None => Some und_cb_views_vec
  | Some cb_views =>
      handle ← depth_data_vec_ s !! i;
      let depth_data := depth_data_heap s handle in
      let und_data := setDepthData (cv_data cb_views) (dd_undistorted_cloud depth_data) in
      let und_cb_views := setId cb_views (cv_id cb_views ++ "_undistorted") in
      let und_cb_views := setData und_cb_views und_data in
      let und_cb_views :=
        setPlaneInliers2 und_cb_views
          (pi_indices (dd_estimated_plane depth_data))
          (pi_std_dev (dd_estimated_plane depth_data)) in
      Some (und_cb_views_vec ++ [Some und_cb_views])
  end.

Definition undistorted_views (s : Calibration)
  : option (list (option CheckerboardViews)) :=
  for_loop (length (cb_views_vec_ s)) (optimize_copy s) [].

Definition optimize (s : Calibration) : option Calibration :=
  if estimate_depth_und_model_ s then
    und_cb_views_vec ← undistorted_views s;
    optimizeAll und_cb_views_vec s
  else
    optimizeTransform (cb_views_vec_ s) s.

(** ** Notions used to state the properties of the engine *)

(** The frame drawn at the [m]-th iteration of the bootstrap loop. *)
Definition random_index (s : Calibration) (m : nat) : nat :=
  Z.to_nat (rand (rand_calls s + m) `mod` Z.of_nat (length (data_vec_ s))).

(** The extractions of the first [k] iterations. *)
Definition extract_calls (s : Calibration) (k : nat) : list Call :=
  (λ m, call_extract (random_index s m)) <$> seq 0 k.

(** A view accepted by the bootstrap: detected in a randomly drawn frame,
    with the checkerboard centre within distance 2 of the origin. *)
Definition accepted_view (s : Calibration) (k : nat) (v : option CheckerboardViews)
  : Prop :=
  ∃ m data view,
    m < k ∧ data_vec_ s !! random_index s m = Some data ∧
    detect (cb_vec_ s) data = Some view ∧ v = Some view ∧
    sleb (v3_norm (v3_sub (cb_center (cv_colorCheckerboard view)) v3_zero))
         (s_of_int 2) = true.

(** The non-null entries of a view collection. *)
Definition surviving (vec : list (option CheckerboardViews)) : list CheckerboardViews :=
  omap id vec.

(** The plane pair of the [k]-th surviving view. *)
Definition plane_pair (k : nat) (view : CheckerboardViews) : list PlaneDatum :=
  [ColorDatum (Z.of_nat k) (cv_colorCheckerboard view);
   DepthDatum (Z.of_nat k) (cv_depthPlane view)].

(** The calibration object [estimateTransform] hands to [calib.perform ()]. *)
Definition plane_calibration_of (vec : list (option CheckerboardViews))
  : PlaneBasedExtrinsicCalibration :=
  mkPlaneCalib (Z.of_nat (length (surviving vec)))
    (mjoin (imap plane_pair (surviving vec))).

Definition addDepthData_calls (n : nat) : list Call := call_addDepthData <$> seq 0 n.

(** The objects the estimator's phases act on. *)
Definition objects_of (s : Calibration) : UndistortionObjects :=
  mkObjects (local_model_ s) (global_model_ s) (depth_data_heap s).

(** What lines 221-228 leave in slot [i]: the view with its re-fitted plane
    when the plane of frame [i] was extracted, null otherwise. *)
Definition keep_or_reset (s : Calibration) (i : nat) (v : option CheckerboardViews)
  : option CheckerboardViews :=
  cb_views ← v;
  handle ← depth_data_vec_ s !! i;
  let depth_data := depth_data_heap s handle in
  if dd_plane_extracted depth_data
  then Some (setPlaneInliers cb_views (dd_estimated_plane depth_data))
  else None.

(** Whether a call is a Ceres solve. *)
Definition is_ceres_Solve (c : Call) : bool :=
  match c with
  | call_ceres_Solve _ _ => true
  | _ => false
  end.

(** C1 as stated: every run of [perform] runs the transform-only optimizer,
    a Ceres solve with the options of [optimizeTransform]. *)
Definition perform_runs_transform_optimizer : Prop :=
  ∀ s s', perform s = Some s' →
          ∃ problem, call_ceres_Solve optimizeTransform_options problem ∈ calls s'.


(** The residual block [optimizeTransform] adds for the view in slot [i]. *)
Definition transform_block (cs : PinholeSensor) (ds : KinectDepthSensor) (i : nat)
    (cb_views : CheckerboardViews) : ResidualBlock :=
  mkResidualBlock
    (TransformCostFunction
       (mkTransformError (ps_cameraModel cs) (cv_checkerboard cb_views)
          (cv_colorView_points cb_views) (pi_plane (cv_depthPlane cb_views))
          (ds_depthErrorFunction ds))
       (2 * cb_size (cv_checkerboard cb_views)))
    (Some (CauchyLoss (s_of_int 1)))
    [transform_data 0; row_data i 0].

Definition view_row6 (cb_views : CheckerboardViews) : list T :=
  pose_row6 (cb_pose (cv_colorCheckerboard cb_views)).

(** The corner in the color frame under the candidate checkerboard pose. *)
Definition corner_in_color (checkerboard_pose : list T) (corner : Vector3 T)
  : Vector3 T :=
  pose_apply
    (pose_of_rotation_vector (head3 checkerboard_pose) (tail3 6 checkerboard_pose))
    corner.

(** The corner in the depth frame under the candidate sensor pose. *)
Definition corner_in_depth (color_sensor_pose checkerboard_pose : list T)
    (corner : Vector3 T) : Vector3 T :=
  pose_apply
    (pose_of_rotation_vector (head3 color_sensor_pose) (tail3 6 color_sensor_pose))
    (corner_in_color checkerboard_pose corner).

(** Pixel distance between the reprojected and the detected corner, over the
    expected pixel noise 0.5. *)
Definition reprojection_residual (e : TransformError) (checkerboard_pose : list T)
    (corner : Vector3 T) (image_corner : Point2 T) : T :=
  sdiv (p2_norm (p2_sub (project3dToPixel2 (te_camera_model e)
                           (corner_in_color checkerboard_pose corner))
                        image_corner))
       s_half.

(** Absolute distance of the corner to the depth-fitted plane, over the depth
    error function at the corner's depth. *)
Definition depth_residual (e : TransformError)
    (color_sensor_pose checkerboard_pose : list T) (corner : Vector3 T) : T :=
  let p := corner_in_depth color_sensor_pose checkerboard_pose corner in
  sdiv (absDistance (te_depth_plane e) p) (poly_eval (te_depth_error_function e) (v3z p)).

Definition reprojection_error_of (cs : PinholeSensor) (cb_views : CheckerboardViews)
  : ReprojectionError :=
  mkReprojectionError (ps_cameraModel cs) (cv_checkerboard cb_views)
    (cv_colorView_points cb_views).

(** The two residual blocks [optimizeAll] adds for the view in slot [i]. *)
Definition full_blocks (cs : PinholeSensor) (ds : KinectDepthSensor) (gm : GlobalModel)
    (i : nat) (cb_views : CheckerboardViews) : list ResidualBlock :=
  [mkResidualBlock
     (TransformDistortionCostFunction
        (mkTransformDistortionError (ps_cameraModel cs) (ds_cameraModel ds)
           (cv_checkerboard cb_views) (rgbd_depthData (cv_data cb_views))
           (pi_indices (cv_depthPlane cb_views)) (ds_depthErrorFunction ds)
           (gm_imageSize gm))
        (3 * length (pi_indices (cv_depthPlane cb_views))))
     None
     [transform_data 0; transform_data 4; global_dataPtr;
      row_data i 0; row_data i 4; delta_ptr];
   mkResidualBlock
     (ReprojectionCostFunction (reprojection_error_of cs cb_views)
        (2 * cb_size (cv_checkerboard cb_views)))
     None
     [row_data i 0; row_data i 4]].

Definition view_row7 (cb_views : CheckerboardViews) : list T :=
  pose_row7 (cb_pose (cv_colorCheckerboard cb_views)).

Definition full_problem (cs : PinholeSensor) (ds : KinectDepthSensor) (gm : GlobalModel)
    (views : list CheckerboardViews) : Problem :=
  mkProblem (mjoin (imap (full_blocks cs ds gm) views))
    (imap (λ i _, (row_data i 0, QuaternionParameterization)) views
     ++ [(transform_data 0, QuaternionParameterization)]).

(** The corner reprojected under the candidate checkerboard pose. *)
Definition reprojected_corner (e : ReprojectionError)
    (checkerboard_pose_q checkerboard_pose_t : list T) (corner : Vector3 T)
  : Point2 T :=
  project3dToPixel2 (re_camera_model e)
    (pose_apply
       (pose_of_quaternion
          (mkQuat (coeff checkerboard_pose_q 0) (coeff checkerboard_pose_q 1)
                  (coeff checkerboard_pose_q 2) (coeff checkerboard_pose_q 3))
          (head3 checkerboard_pose_t))
       corner).

(** The normalisation applied by the code: 0.5 times the square root of the
    corner count. *)
Definition reprojection_scale (e : ReprojectionError) : T :=
  smul s_half (ssqrt (s_of_int (Z.of_nat (cb_size (re_checkerboard e))))).

(** C5 as stated: every component is the difference of the reprojected and
    the detected coordinate over the pixel noise 0.5. *)
Definition reprojection_normalized_by_pixel_noise : Prop :=
  ∀ e checkerboard_pose_q checkerboard_pose_t residuals r k corner image_corner,
    length residuals = 2 * cb_size (re_checkerboard e) →
    ReprojectionError_call e checkerboard_pose_q checkerboard_pose_t residuals = Some r →
    cb_corners (re_checkerboard e) !! k = Some corner →
    re_image_corners e !! k = Some image_corner →
    let reprojected :=
      reprojected_corner e checkerboard_pose_q checkerboard_pose_t corner in
    r !! (2 * k) = Some (sdiv (ssub (p2x reprojected) (p2x image_corner)) s_half)
    ∧ r !! (2 * k + 1) = Some (sdiv (ssub (p2y reprojected) (p2y image_corner)) s_half).




End Engine.

(** ** A concrete set of collaborators

    Used to run the engine on concrete inputs. Poses are a quaternion and a
    translation; rotation vectors are converted to first order; the camera
    models are distortion-free pinholes. *)

Section Reference.

Context {T : Type} `{Scalar T}.

Definition v3_add (a b : Vector3 T) : Vector3 T :=
  mkV3 (sadd (v3x a) (v3x b)) (sadd (v3y a) (v3y b)) (sadd (v3z a) (v3z b)).

Definition v3_cross (a b : Vector3 T) : Vector3 T :=
  mkV3 (ssub (smul (v3y a) (v3z b)) (smul (v3z a) (v3y b)))
       (ssub (smul (v3z a) (v3x b)) (smul (v3x a) (v3z b)))
       (ssub (smul (v3x a) (v3y b)) (smul (v3y a) (v3x b))).

Definition v3_scale (k : T) (a : Vector3 T) : Vector3 T :=
  mkV3 (smul k (v3x a)) (smul k (v3y a)) (smul k (v3z a)).

Record RefPose : Type := mkRefPose {
  rp_rotation : Quaternion T;
  rp_translation : Vector3 T
}.

(** [t + q v q^-1] for a unit quaternion. *)
Definition ref_pose_apply (p : RefPose) (v : Vector3 T) : Vector3 T :=
  let q := rp_rotation p in
  let u := mkV3 (qx q) (qy q) (qz q) in
  let uv := v3_cross u v in
  let uv := v3_add uv uv in
  v3_add (v3_add (v3_add v (v3_scale (qw q) uv)) (v3_cross u uv)) (rp_translation p).

Record RefCamera : Type := mkRefCamera { fx : T; fy : T; cx : T; cy : T }.

Definition ref_project (c : RefCamera) (p : Vector3 T) : Point2 T :=
  mkP2 (sadd (smul (fx c) (sdiv (v3x p) (v3z p))) (cx c))
       (sadd (smul (fy c) (sdiv (v3y p) (v3z p))) (cy c)).

Definition ref_intrinsicMatrix (c : RefCamera) (r k : nat) : T :=
  match r, k with
  | 0, 0 => fx c
  | 1, 1 => fy c
  | 0, 2 => cx c
  | 1, 2 => cy c
  | 2, 2 => s_of_int 1
  | _, _ => s_of_int 0
  end.

(** Horner evaluation, constant coefficient first. *)
Definition ref_poly_eval (c : list T) (x : T) : T :=
  foldr (λ a acc, sadd a (smul x acc)) (s_of_int 0) c.

(** Gauss-Jordan elimination without pivoting on the augmented rows. *)
Definition row_scale (k : T) (r : list T) : list T := (λ a, sdiv a k) <$> r.

Definition row_sub (r p : list T) (k : T) : list T :=
  zip_with (λ a b, ssub a (smul k b)) r p.

Definition eliminate (i : nat) (rows : list (list T)) : list (list T) :=
  match rows !! i with
  | None => rows
  | Some p =>
      let p := row_scale (default (s_of_int 1) (p !! i)) p in
      imap (λ j r, if decide (j = i) then p
                   else row_sub r p (default (s_of_int 0) (r !! i))) rows
  end.

Definition ref_solve (A : list (list T)) (b : list T) : list T :=
  let rows := zip_with (λ r y, r ++ [y]) A b in
  let rows := foldl (λ rows i, eliminate i rows) rows (seq 0 (length A)) in
  (λ r, default (s_of_int 0) (last r)) <$> rows.

Definition ref_library : Library T := {|
  Pose := RefPose;
  pose_of_rotation_vector r t :=
    mkRefPose (mkQuat (s_of_int 1) (smul s_half (v3x r)) (smul s_half (v3y r))
                 (smul s_half (v3z r))) t;
  rotation_vector_of_pose p :=
    let q := rp_rotation p in
    mkV3 (smul (s_of_int 2) (qx q)) (smul (s_of_int 2) (qy q)) (smul (s_of_int 2) (qz q));
  pose_of_quaternion q t := mkRefPose q t;
  quaternion_of_pose := rp_rotation;
  translation_of_pose := rp_translation;
  pose_apply := ref_pose_apply;
  colPivHouseholderQr_solve := ref_solve;
  cvMat := nat;
  PinholeCameraModel := RefCamera;
  KinectDepthCameraModel := RefCamera;
  project3dToPixel2 := ref_project;
  intrinsicMatrix := ref_intrinsicMatrix;
  poly_eval := ref_poly_eval;
  DEGREE := 2;
  MIN_DEGREE := 0;
  LocalModel := nat;
  rand n := ((Z.of_nat n * 1103515245 + 12345) `mod` 2147483648)%Z
|}.

#[local] Existing Instance ref_library.

(** Detection finds the first checkerboard of the list, posed at the frame's
    first depth point. *)
Definition ref_detect (cb_vec : list Checkerboard) (data : RGBDData)
  : option CheckerboardViews :=
  cb ← head cb_vec;
  p ← head (points (rgbd_depthData data));
  let center :=
    mkV3 (s_of_int (Z.of_nat (rgbd_id data))) (s_of_int 0) (s_of_int 1) in
  let pose := mkRefPose (mkQuat (s_of_int 1) (s_of_int 0) (s_of_int 0) (s_of_int 0)) center in
  let posed := mkCheckerboard (ref_pose_apply pose <$> cb_corners cb) pose center in
  Some (mkViews "view" data cb posed
          (ref_project (mkRefCamera (s_of_int 1) (s_of_int 1) (s_of_int 0) (s_of_int 0))
             <$> cb_corners posed)
          (mkPlaneInfo (mkPlane (mkV3 (s_of_int 0) (s_of_int 0) (s_of_int 1)) (s_of_int (-1)))
             [] (s_of_int 0))).

(** The reverse pass finds a plane in every dense cloud. *)
Definition ref_reverse (due : DepthUndistortionEstimation (T:=T))
    (o : UndistortionObjects)
  : UndistortionObjects :=
  mkObjects (uo_local_model o) (uo_global_model o)
    (λ h, let d := uo_depth_data o h in
          mkDepthData (dd_cloud d) (dd_checkerboard d) (dd_undistorted_cloud d)
            (is_dense (dd_cloud d)) (dd_estimated_plane d)).

Definition ref_collaborators : Collaborators := {|
  detect := ref_detect;
  extractAll _ cb_vec data_vec _ := (λ d, ref_detect cb_vec d) <$> data_vec;
  checkerboard_transform cb pose :=
    mkCheckerboard (ref_pose_apply pose <$> cb_corners cb) (cb_pose cb)
      (ref_pose_apply pose (cb_center cb));
  addDepthData _ cloud cb :=
    mkDepthData cloud cb cloud false
      (mkPlaneInfo (mkPlane (mkV3 (s_of_int 0) (s_of_int 0) (s_of_int 1)) (s_of_int (-1)))
         [] (s_of_int 0));
  estimateLocalModel _ o := o;
  estimateLocalModelReverse := ref_reverse;
  estimateGlobalModel _ o := o;
  setPlaneInliers v plane :=
    mkViews (cv_id v) (cv_data v) (cv_checkerboard v) (cv_colorCheckerboard v)
      (cv_colorView_points v) plane;
  setPlaneInliers2 v indices std_dev :=
    mkViews (cv_id v) (cv_data v) (cv_checkerboard v) (cv_colorCheckerboard v)
      (cv_colorView_points v)
      (mkPlaneInfo (pi_plane (cv_depthPlane v)) indices std_dev);
  PlaneBasedExtrinsicCalibration_perform _ cs ds := (cs, ds);
  ceres_Solve _ _ memory := memory
|}.

End Reference.

(** ** Sample inputs, in double precision *)

Section Samples.

#[local] Existing Instance F64_Scalar.
#[local] Existing Instance ref_library.
#[local] Existing Instance ref_collaborators.

Definition d (z : Z) : F64.t := F64.of_int z.

Definition unit_quaternion : Quaternion F64.t := mkQuat (d 1) (d 0) (d 0) (d 0).

Definition identity_pose : RefPose (T:=F64.t) := mkRefPose unit_quaternion (mkV3 (d 0) (d 0) (d 0)).

Definition unit_camera : RefCamera (T:=F64.t) := mkRefCamera (d 1) (d 1) (d 0) (d 0).

(** A 2 by 2 checkerboard one unit in front of the camera. *)
Definition sample_checkerboard : Checkerboard (T:=F64.t) :=
  mkCheckerboard
    [mkV3 (d 1) (d 1) (d 1); mkV3 (d 2) (d 1) (d 1);
     mkV3 (d 1) (d 2) (d 1); mkV3 (d 2) (d 2) (d 1)]
    identity_pose (mkV3 (d 0) (d 0) (d 1)).

Definition sample_color_sensor : PinholeSensor (T:=F64.t) :=
  mkPinholeSensor true identity_pose unit_camera.

Definition sample_depth_sensor : KinectDepthSensor (T:=F64.t) :=
  mkKinectDepthSensor identity_pose unit_camera [d 1; d 0; d 0].

(** A dense frame and a frame with an invalid point. *)
Definition sample_frames : list (RGBDData (T:=F64.t)) :=
  [mkRGBDData 1 0 sample_cloud;
   mkRGBDData 2 0 (mkCloud 0 1 1 false [bad_point])].

(** Cells p00 = 1, p01 = 2 + x, p10 = 3 + x^2 and an arbitrary fourth cell. *)
Definition sample_global_model : GlobalModel (T:=F64.t) :=
  mkGlobalModel (2, 2)
    [d 1; d 0; d 0;  d 3; d 0; d 1;  d 2; d 1; d 0;  d 7; d 7; d 7].

Definition sample_plane : PlaneInfo (T:=F64.t) :=
  mkPlaneInfo (mkPlane (mkV3 (d 0) (d 0) (d 1)) (d (-1))) [0; 1] (d 0).

Definition sample_state : Calibration (T:=F64.t) :=
  mkCalibration (Some sample_color_sensor) (Some sample_depth_sensor)
    [sample_checkerboard] true false 1 (Some 0) (Some sample_global_model) true true
    (Some (mkDUE [d 1; d 0; d 0] 8 [])) sample_frames [] []
    [d 500; d 500; d 320; d 240]
    (λ _, mkDepthData sample_cloud sample_checkerboard sample_cloud false sample_plane)
    0 0 [].

(** Four detected image corners at the origin of the image. *)
Definition sample_view : CheckerboardViews (T:=F64.t) :=
  mkViews "frame_1" (mkRGBDData 1 0 sample_cloud) sample_checkerboard sample_checkerboard
    [mkP2 (d 0) (d 0); mkP2 (d 0) (d 0); mkP2 (d 0) (d 0); mkP2 (d 0) (d 0)]
    sample_plane.

End Samples.

(** * Properties *)

(** ** Loops *)

Lemma for_from_fold_opt {St : Type} (body : nat → St → option St) n start s :
  for_from start n body s = fold_opt body (seq start n) s.
Proof.
  revert start s. induction n as [|n IH]; intros start s; simpl; [done|].
  destruct (body start s); simpl; [apply IH | done].
Qed.

Lemma fold_opt_app {A St : Type} (f : A → St → option St) l1 l2 s :
  fold_opt f (l1 ++ l2) s = s' ← fold_opt f l1 s; fold_opt f l2 s'.
Proof.
  revert s. induction l1 as [|a l1 IH]; intros s; simpl; [done|].
  destruct (f a s); simpl; [apply IH | done].
Qed.

Lemma fold_opt_ext {A St : Type} (f g : A → St → option St) l s :
  (∀ a t, f a t = g a t) → fold_opt f l s = fold_opt g l s.
Proof.
  intros Hfg. revert s. induction l as [|a l IH]; intros s; simpl; [done|].
  rewrite Hfg. destruct (g a s); simpl; [apply IH | done].
Qed.

Lemma fold_opt_nested {A B C St : Type} (g : A → B → St → option St)
    (h : A → B → C) (f : C → St → option St) l1 l2 s :
  (∀ a b t, g a b t = f (h a b) t) →
  fold_opt (λ a, fold_opt (g a) l2) l1 s
  = fold_opt f (a ← l1; b ← l2; [h a b]) s.
Proof.
  intros Hg. revert s. induction l1 as [|a l1 IH]; intros s; simpl; [done|].
  rewrite fold_opt_app.
  assert (Hin : ∀ t, fold_opt (g a) l2 t = fold_opt f (b ← l2; [h a b]) t).
  { clear IH. induction l2 as [|b l2 IH]; intros t; simpl; [done|].
    rewrite Hg. destruct (f (h a b) t); simpl; [apply IH | done]. }
  rewrite <- Hin. destruct (fold_opt (g a) l2 s); simpl; [apply IH | done].
Qed.

Lemma nested_loops_fold {C St : Type} (g : nat → nat → St → option St)
    (h : nat → nat → C) (f : C → St → option St) n m s :
  (∀ a b t, g a b t = f (h a b) t) →
  for_loop n (λ a, for_loop m (g a)) s
  = fold_opt f (a ← seq 0 n; b ← seq 0 m; [h a b]) s.
Proof.
  intros Hg. unfold for_loop. rewrite for_from_fold_opt.
  rewrite <- (fold_opt_nested g h f _ _ s Hg).
  apply fold_opt_ext. intros a t. apply for_from_fold_opt.
Qed.


Lemma for_loop_invariant {St : Type} (P : nat → St → Prop) n
    (body : nat → St → option St) s :
  P 0 s →
  (∀ k t, k < n → P k t → ∃ t', body k t = Some t' ∧ P (S k) t') →
  ∃ s', for_loop n body s = Some s' ∧ P n s'.
Proof.
  unfold for_loop. intros H0 Hstep.
  assert (Hgen : ∀ m start t, start + m = n → P start t →
            ∃ s', for_from start m body t = Some s' ∧ P n s').
  { induction m as [|m IH]; intros start t Hn Ht; simpl.
    - replace n with start by lia. eauto.
    - destruct (Hstep start t) as (t' & -> & Ht'); [lia | done |]. simpl.
      apply IH; [lia | done]. }
  by apply (Hgen n 0 s).
Qed.

Lemma for_while_invariant {St : Type} (P : nat → St → Prop) n (cond : St → bool)
    (body : nat → St → option St) s :
  P 0 s →
  (∀ k t, k < n → P k t → cond t = true → ∃ t', body k t = Some t' ∧ P (S k) t') →
  ∃ s' k, for_while n cond body s = Some s' ∧ k ≤ n ∧ P k s'
          ∧ (k = n ∨ cond s' = false).
Proof.
  unfold for_while. intros H0 Hstep.
  assert (Hgen : ∀ m start t, start + m = n → P start t →
            ∃ s' k, for_while_from start m cond body t = Some s' ∧ k ≤ n ∧ P k s'
                    ∧ (k = n ∨ cond s' = false)).
  { induction m as [|m IH]; intros start t Hn Ht; simpl.
    - exists t, start. repeat split; [lia | done | left; lia].
    - destruct (cond t) eqn:Hc.
      + destruct (Hstep start t) as (t' & -> & Ht'); [lia | done | done |]. simpl.
        apply IH; [lia | done].
      + exists t, start. repeat split; [lia | done | by right]. }
  by apply (Hgen n 0 s).
Qed.

(** ** Down-sampling *)

Section Downsample.

Variables (cloud : PCLCloud3) (ratio_ : nat).

Lemma block_loops i j st :
  for_loop ratio_ (λ di, for_loop ratio_ (λ dj, accumulate_pixel cloud ratio_ i j di dj)) st
  = fold_opt (accumulate_coord cloud i j) (block_coords ratio_ i j) st.
Proof.
  apply (nested_loops_fold (λ di dj, accumulate_pixel cloud ratio_ i j di dj)
           (λ di dj, (j * ratio_ + dj, i * ratio_ + di))).
  intros di dj [nc c]. reflexivity.
Qed.

Lemma cloud_at_organized c j i :
  1 < height c → cloud_at c j i = points c !! (i * width c + j).
Proof. intros H. unfold cloud_at. by rewrite decide_True. Qed.

Lemma cloud_set_Some c j i p :
  1 < height c →
  i * width c + j < length (points c) →
  cloud_set c j i p = Some (with_point c (i * width c + j) p).
Proof. intros Hh H. unfold cloud_set. by rewrite decide_True. Qed.

Lemma with_point_twice c k p q : with_point (with_point c k p) k q = with_point c k q.
Proof. unfold with_point. simpl. by rewrite list_insert_insert_eq. Qed.

(** The two inner loops over a list of input pixels, all inside the input. *)
Lemma accumulate_block i j l nc count q :
  Forall (λ cr, is_Some (cloud_at cloud cr.1 cr.2)) l →
  1 < height nc →
  i * width nc + j < length (points nc) →
  points nc !! (i * width nc + j) = Some q →
  let fin := finite_points (omap (λ cr, cloud_at cloud cr.1 cr.2) l) in
  fold_opt (accumulate_coord cloud i j) l (nc, count)
  = Some (with_point nc (i * width nc + j) (foldl point_accumulate q fin),
          count + length fin).
Proof.
  intros Hl. revert nc count q.
  induction Hl as [|cr l [p Hp] Hl IH]; intros nc count q Hh Hk Hq; simpl.
  - unfold with_point. rewrite list_insert_id by done.
    destruct nc; simpl. do 2 f_equal. lia.
  - rewrite Hp. simpl. unfold finite_points. destruct (isFinite p) eqn:Hfin.
    + rewrite (cloud_at_organized nc) by done. rewrite Hq. simpl.
      rewrite cloud_set_Some by done. simpl.
      rewrite filter_cons_True by done. simpl.
      rewrite (IH _ _ (point_accumulate q p)); simpl.
      * rewrite with_point_twice. f_equal. f_equal. unfold finite_points, omap. lia.
      * done.
      * by rewrite length_insert.
      * by apply list_lookup_insert_eq.
    + rewrite filter_cons_False by (rewrite Hfin; discriminate). by apply IH.
Qed.

Lemma block_coords_spec i j cr :
  cr ∈ block_coords ratio_ i j →
  ∃ di dj, di < ratio_ ∧ dj < ratio_ ∧ cr = (j * ratio_ + dj, i * ratio_ + di).
Proof.
  unfold block_coords. intros H.
  apply list_elem_of_bind in H as (di & H & Hdi).
  apply list_elem_of_bind in H as (dj & H & Hdj).
  apply list_elem_of_singleton in H.
  apply elem_of_seq in Hdi, Hdj. exists di, dj. repeat split; [lia | lia | done].
Qed.

Hypothesis Horg : organized cloud.
Hypothesis Hratio : 0 < ratio_.
Hypothesis Hrows : 1 < height cloud / ratio_.

Lemma input_organized : 1 < height cloud.
Proof. pose proof (Nat.Div0.div_le_upper_bound (height cloud) ratio_ (height cloud)). nia. Qed.

Lemma block_in_range i j :
  i < height cloud / ratio_ → j < width cloud / ratio_ →
  Forall (λ cr, is_Some (cloud_at cloud cr.1 cr.2)) (block_coords ratio_ i j).
Proof.
  intros Hi Hj. apply Forall_forall. intros cr Hcr.
  apply block_coords_spec in Hcr as (di & dj & Hdi & Hdj & ->). simpl.
  rewrite cloud_at_organized by apply input_organized.
  apply lookup_lt_is_Some. rewrite Horg.
  pose proof (Nat.Div0.mul_div_le (height cloud) ratio_) as Hh.
  pose proof (Nat.Div0.mul_div_le (width cloud) ratio_) as Hw.
  assert (Hrow : i * ratio_ + di < height cloud) by nia.
  assert (Hcol : j * ratio_ + dj < width cloud) by nia.
  nia.
Qed.


(** One output cell: the cell receives [cell_value], nothing else in the
    output changes, and the dense flag is cleared exactly when the block
    holds no finite point. *)
Lemma downsample_cell_spec i j nc :
  i < height cloud / ratio_ → j < width cloud / ratio_ →
  1 < height nc →
  i * width nc + j < length (points nc) →
  downsample_cell cloud ratio_ i j nc
  = Some (mkCloud (header nc) (width nc) (height nc)
            (is_dense nc
             && bool_decide (0 < length (finite_points (block cloud ratio_ i j))))
            (<[i * width nc + j := cell_value cloud ratio_ i j]> (points nc))).
Proof.
  intros Hi Hj Hh Hk. unfold downsample_cell.
  rewrite cloud_set_Some by done. simpl. rewrite block_loops.
  rewrite (accumulate_block i j _ _ 0 zero_point (block_in_range i j Hi Hj));
    simpl; [| done | by rewrite length_insert | by apply list_lookup_insert_eq].
  fold (block cloud ratio_ i j). unfold cell_value.
  set (fin := finite_points (block cloud ratio_ i j)).
  rewrite with_point_twice. destruct (decide (0 < length fin)) as [Hpos|Hpos].
  - rewrite cloud_at_organized by done. simpl.
    rewrite list_lookup_insert_eq by done. simpl.
    rewrite cloud_set_Some by (simpl; done || by rewrite length_insert). simpl.
    rewrite with_point_twice. unfold with_point. simpl.
    rewrite bool_decide_true by done. by rewrite andb_true_r.
  - rewrite cloud_set_Some by (simpl; done || by rewrite length_insert). simpl.
    rewrite with_point_twice. unfold with_point, set_is_dense. simpl.
    rewrite bool_decide_false by done. by rewrite andb_false_r.
Qed.

Lemma quotient_area :
  width cloud / ratio_ * (height cloud / ratio_)
  ≤ length (points cloud) / (ratio_ * ratio_).
Proof.
  apply Nat.div_le_lower_bound; [nia|]. rewrite Horg.
  pose proof (Nat.Div0.mul_div_le (height cloud) ratio_) as Hh.
  pose proof (Nat.Div0.mul_div_le (width cloud) ratio_) as Hw.
  nia.
Qed.

Lemma downsample_cell_step i j nc :
  i < height cloud / ratio_ → j < width cloud / ratio_ →
  cells_done cloud ratio_ (i * (width cloud / ratio_) + j) nc →
  ∃ nc', downsample_cell cloud ratio_ i j nc = Some nc'
         ∧ cells_done cloud ratio_ (i * (width cloud / ratio_) + S j) nc'.
Proof.
  intros Hi Hj (Hhd & Hw & Hh & Hlen & Hdense & Hpts).
  set (W := width cloud / ratio_) in *.
  assert (Hk : i * W + j < length (points nc)).
  { rewrite Hlen. pose proof quotient_area. fold W in H. nia. }
  eexists. split.
  { apply downsample_cell_spec; [done | done | by rewrite Hh | by rewrite Hw]. }
  rewrite Hw.
  assert (Hdiv : (i * W + j) / W = i).
  { rewrite Nat.div_add_l by lia. rewrite Nat.div_small by done. lia. }
  assert (Hmod : (i * W + j) mod W = j).
  { rewrite Nat.add_comm, Nat.Div0.mod_add. by apply Nat.mod_small. }
  repeat split; simpl; try done.
  - by rewrite length_insert.
  - replace (i * W + S j) with (S (i * W + j)) by lia.
    rewrite seq_S, forallb_app. simpl. rewrite andb_true_r, andb_assoc, <- Hdense.
    f_equal. unfold cell_nonempty. fold W. by rewrite Hdiv, Hmod.
  - intros k Hlt. rewrite length_insert in Hlt.
    destruct (decide (k = i * W + j)) as [->|Hne].
    + rewrite list_lookup_insert_eq by done. rewrite decide_True by lia.
      unfold cell_of. fold W. by rewrite Hdiv, Hmod.
    + rewrite list_lookup_insert_ne by done. rewrite Hpts by done.
      destruct (decide (k < i * W + j)), (decide (k < i * W + S j)); done || lia.
Qed.

Lemma downsample_row i nc :
  i < height cloud / ratio_ →
  cells_done cloud ratio_ (i * (width cloud / ratio_)) nc →
  ∃ nc', for_loop (width cloud / ratio_) (λ j, downsample_cell cloud ratio_ i j) nc
         = Some nc'
         ∧ cells_done cloud ratio_ (S i * (width cloud / ratio_)) nc'.
Proof.
  intros Hi Hnc.
  replace (S i * (width cloud / ratio_))
    with (i * (width cloud / ratio_) + width cloud / ratio_) by lia.
  apply (for_loop_invariant
           (λ j t, cells_done cloud ratio_ (i * (width cloud / ratio_) + j) t)).
  - by rewrite Nat.add_0_r.
  - intros j t Hj Ht. by apply downsample_cell_step.
Qed.

Hypothesis Hint : (Z.of_nat ratio_ * Z.of_nat ratio_ ≤ INT_MAX)%Z.

(** The whole down-sampling terminates normally and completes every cell. *)
Lemma downsample_cells :
  ∃ out, downsample ratio_ cloud = Some out
         ∧ cells_done cloud ratio_ (width cloud / ratio_ * (height cloud / ratio_)) out.
Proof.
  unfold downsample. rewrite decide_True by done. simpl.
  rewrite (Nat.mul_comm (width cloud / ratio_)).
  apply (for_loop_invariant (λ i t, cells_done cloud ratio_ (i * (width cloud / ratio_)) t)).
  - repeat split; simpl; try done.
    + by rewrite length_replicate.
    + by rewrite andb_true_r.
    + intros k Hk. rewrite length_replicate in Hk.
      by rewrite lookup_replicate_2.
  - intros i t Hi Ht. by apply downsample_row.
Qed.


End Downsample.

Lemma block_agree ratio_ c1 c2 i j :
  agree_inside ratio_ c1 c2 →
  i < height c1 / ratio_ → j < width c1 / ratio_ →
  block c1 ratio_ i j = block c2 ratio_ i j.
Proof.
  intros (_ & _ & _ & _ & Hin) Hi Hj. unfold block.
  assert (Hall : Forall (λ cr, cloud_at c1 cr.1 cr.2 = cloud_at c2 cr.1 cr.2)
                   (block_coords ratio_ i j)).
  { apply Forall_forall. intros cr Hcr.
    apply block_coords_spec in Hcr as (di & dj & Hdi & Hdj & ->). simpl.
    apply Hin; nia. }
  induction Hall as [|cr l Hcr _ IH]; csimpl; [done|].
  by rewrite Hcr, IH.
Qed.

Lemma forallb_seq_ext (f g : nat → bool) m :
  (∀ k, k < m → f k = g k) → forallb f (seq 0 m) = forallb g (seq 0 m).
Proof.
  intros Hfg. induction m as [|m IH]; [done|].
  rewrite seq_S, !forallb_app. simpl. rewrite IH, Hfg by (intros; auto with lia).
  done.
Qed.

Lemma cells_done_agree ratio_ c1 c2 out1 out2 :
  0 < ratio_ →
  agree_inside ratio_ c1 c2 →
  length (points c1) = length (points c2) →
  cells_done c1 ratio_ (width c1 / ratio_ * (height c1 / ratio_)) out1 →
  cells_done c2 ratio_ (width c2 / ratio_ * (height c2 / ratio_)) out2 →
  out1 = out2.
Proof.
  intros Hr Hag Hlen (Hhd1 & Hw1 & Hh1 & Hl1 & Hd1 & Hp1) (Hhd2 & Hw2 & Hh2 & Hl2 & Hd2 & Hp2).
  pose proof Hag as (Hhd & Hw & Hh & Hd & _).
  rewrite <- Hw, <- Hh in *. set (W := width c1 / ratio_) in *.
  set (H := height c1 / ratio_) in *.
  assert (Hcell : ∀ k, k < W * H → k / W < H ∧ k mod W < W).
  { intros k Hk. assert (0 < W) by nia. split.
    - apply Nat.Div0.div_lt_upper_bound. lia.
    - apply Nat.mod_upper_bound. lia. }
  idtac.
  assert (Hblk : ∀ k, k < W * H →
            block c1 ratio_ (k / W) (k mod W) = block c2 ratio_ (k / W) (k mod W)).
  { intros k Hk. destruct (Hcell k Hk). by apply block_agree. }
  destruct out1 as [hd1 w1 h1 d1 p1], out2 as [hd2 w2 h2 d2 p2]. simpl in *.
  f_equal; try congruence.
  - rewrite Hd1, Hd2, Hd.
    rewrite (forallb_seq_ext _ (cell_nonempty c2 ratio_)); [done|]. intros k Hk.
    unfold cell_nonempty. rewrite <- Hw. fold W. by rewrite Hblk.
  - apply list_eq. intros k. destruct (decide (k < length p1)) as [Hk|Hk].
    + rewrite Hp1, Hp2 by congruence. f_equal.
      destruct (decide (k < W * H)) as [HkW|]; [|done].
      unfold cell_of, cell_value. rewrite <- Hw. fold W. by rewrite Hblk.
    + assert (length p2 = length p1) by (by rewrite Hl1, Hl2, Hlen).
      rewrite !lookup_ge_None_2; [done | lia | lia].
Qed.

(** The down-sampled cloud in closed form. *)
Lemma downsample_total (cloud : PCLCloud3) (ratio_ : Z) :
  organized cloud → (1 < ratio_)%Z → (ratio_ * ratio_ ≤ INT_MAX)%Z →
  1 < height cloud / Z.to_nat ratio_ →
  ∃ new_cloud,
    addData_depth ratio_ cloud = Some new_cloud
    ∧ cells_done cloud (Z.to_nat ratio_)
        (width cloud / Z.to_nat ratio_ * (height cloud / Z.to_nat ratio_)) new_cloud.
Proof.
  intros Horg Hr Hint Hrows. unfold addData_depth. rewrite decide_True by done.
  apply downsample_cells; [done | lia | done |].
  rewrite Z2Nat.id by lia. done.
Qed.



(** C9. For r > 1 the output width and height are the truncating quotients
    of the input's by r, the storage is resized to input_size / (r * r), which
    differs from width * height whenever the two quantities disagree, and the
    output depends on the input only through the pixels inside the
    (width * r) by (height * r) region: trailing rows and columns never
    contribute. *)
Theorem downsample_dimensions_and_region (cloud : PCLCloud3) (ratio_ : Z) :
  organized cloud → (1 < ratio_)%Z → (ratio_ * ratio_ ≤ INT_MAX)%Z →
  1 < height cloud / Z.to_nat ratio_ →
  ∃ new_cloud,
    addData_depth ratio_ cloud = Some new_cloud ∧
    width new_cloud = width cloud / Z.to_nat ratio_ ∧
    height new_cloud = height cloud / Z.to_nat ratio_ ∧
    length (points new_cloud)
    = length (points cloud) / (Z.to_nat ratio_ * Z.to_nat ratio_) ∧
    (width cloud / Z.to_nat ratio_ * (height cloud / Z.to_nat ratio_)
     ≠ length (points cloud) / (Z.to_nat ratio_ * Z.to_nat ratio_) →
     length (points new_cloud) ≠ width new_cloud * height new_cloud) ∧
    ∀ cloud', organized cloud' → agree_inside (Z.to_nat ratio_) cloud cloud' →
              addData_depth ratio_ cloud' = Some new_cloud.
Proof.
  intros Horg Hr Hint Hrows.
  destruct (downsample_total cloud ratio_ Horg Hr Hint Hrows) as (out & Hout & Hdone).
  exists out. pose proof Hdone as (_ & Hw & Hh & Hlen & _ & _).
  repeat split; try done.
  - rewrite Hw, Hh, Hlen. auto.
  - intros cloud' Horg' Hag.
    pose proof Hag as (_ & Hw' & Hh' & _).
    destruct (downsample_total cloud' ratio_ Horg' Hr Hint) as (out' & Hout' & Hdone').
    { by rewrite <- Hh'. }
    rewrite Hout'. f_equal. symmetry.
    apply (cells_done_agree (Z.to_nat ratio_) cloud cloud'); try done; [lia|].
    unfold organized in *. congruence.
Qed.

(** A 5 by 4 cloud at ratio 2: a 2 by 2 output with five allocated points;
    the fifth column is discarded. *)
Lemma downsample_dimensions_and_region_witness :
  ∃ new_cloud,
    addData_depth 2 sample_cloud_5x4 = Some new_cloud ∧
    width new_cloud = 2 ∧ height new_cloud = 2 ∧
    length (points new_cloud) = 5 ∧
    length (points new_cloud) ≠ width new_cloud * height new_cloud ∧
    addData_depth 2 sample_cloud_5x4' = Some new_cloud.
Proof.
  destruct (downsample_dimensions_and_region sample_cloud_5x4 2)
    as (out & Hout & Hw & Hh & Hlen & Hne & Hreg).
  - reflexivity.
  - lia.
  - vm_compute. discriminate.
  - vm_compute. lia.
  - exists out. split; [exact Hout|]. split; [exact Hw|]. split; [exact Hh|].
    split; [exact Hlen|]. split.
    + apply Hne. vm_compute. discriminate.
    + apply Hreg; [reflexivity|].
      repeat split. intros column row Hc Hrow.
      change (width sample_cloud_5x4 / Z.to_nat 2 * Z.to_nat 2) with 4 in Hc.
      change (height sample_cloud_5x4 / Z.to_nat 2 * Z.to_nat 2) with 4 in Hrow.
      do 4 (destruct column as [|column]; [do 4 (destruct row as [|row]; [reflexivity|]); lia|]).
      lia.
Defined.

Example downsample_sample_cloud :
  addData_depth 2 sample_cloud
  = Some (mkCloud 0 2 2 false
            [mkPoint (f32 2) (f32 3) (f32 4); bad_point; pt 4; pt 4]).
Proof. vm_compute. reflexivity. Qed.

(** ** The engine *)

Section EngineProperties.

Context {T : Type} `{Scalar T} `{Library T} `{!Collaborators (T:=T)}.

(** C8. A non-positive down-sample ratio fails the precondition of
    [setDownSampleRatio] and aborts the run, every ratio of at least 1 is
    accepted; [initDepthUndistortionModel] fails its precondition when the
    local or the global model has not been set, and goes through once both
    were set by [setLocalModel] and [setGlobalModel] (a depth sensor being
    installed). *)
Theorem contract_violations_abort (s : Calibration) (ratio : Z) :
  ((ratio ≤ 0)%Z → setDownSampleRatio ratio s = None) ∧
  ((1 ≤ ratio)%Z →
     setDownSampleRatio ratio s = Some (with_ratio_ s ratio)
     ∧ ratio_ (with_ratio_ s ratio) = ratio) ∧
  (local_matrix_ s = false ∨ global_matrix_ s = false →
     initDepthUndistortionModel s = None) ∧
  (∀ local global ds,
     depth_sensor_ s = Some ds →
     ∃ s', initDepthUndistortionModel (setGlobalModel global (setLocalModel local s))
           = Some s'
           ∧ estimate_depth_und_model_ s' = true
           ∧ depth_undistortion_estimation_ s'
             = Some (mkDUE (ds_depthErrorFunction ds) 8 [])).
Proof.
  repeat split.
  - intros Hr. unfold setDownSampleRatio. by rewrite decide_False by lia.
  - unfold setDownSampleRatio. by rewrite decide_True by lia.
  - intros [Hl|Hg]; unfold initDepthUndistortionModel.
    + by rewrite Hl.
    + rewrite Hg. by rewrite andb_false_r.
  - intros local global ds Hds. unfold initDepthUndistortionModel. simpl.
    rewrite Hds. simpl. eauto.
Qed.

(** The frame record created by [addData] holds the cloud of
    [addData_depth], with the next identifier. *)
Lemma addData_stores_downsampled image cloud s :
  addData image cloud s
  = depth ← addData_depth (ratio_ s) cloud;
    Some (with_data_vec_ s
            (data_vec_ s ++ [mkRGBDData (length (data_vec_ s) + 1) image depth])).
Proof.
  unfold addData, addData_. by destruct (addData_depth (ratio_ s) cloud).
Qed.

Lemma extract_calls_S s k :
  extract_calls s (S k) = extract_calls s k ++ [call_extract (random_index s k)].
Proof. unfold extract_calls. by rewrite seq_S, fmap_app. Qed.

Lemma accepted_view_mono s k k' v : k ≤ k' → accepted_view s k v → accepted_view s k' v.
Proof.
  intros Hk (m & data & view & Hm & Hrest). exists m, data, view.
  split; [lia | done].
Qed.

(** C6. The bootstrap draws frames by random index, accepts a frame's view
    only when the detected checkerboard's centre lies within distance 2.0 of
    the sensor origin, never holds more than 10 views, and hands the accepted
    views to the plane-correspondence transform estimation. *)
Theorem initial_transform_selection (s : Calibration) :
  ∃ cb_views_vec k,
    k ≤ length (data_vec_ s) ∧
    initial_views s
    = Some (cb_views_vec, rand_calls s + k,
            calls s ++ extract_calls s k) ∧
    length cb_views_vec ≤ 10 ∧
    Forall (accepted_view s k) cb_views_vec ∧
    estimateInitialTransform s
    = estimateTransform cb_views_vec
        (with_calls (with_rand_calls s (rand_calls s + k))
           (calls s ++ extract_calls s k)).
Proof.
  unfold estimateInitialTransform, initial_views.
  set (constraint := mkDistanceConstraint (s_of_int 2) v3_zero).
  destruct (for_while_invariant
    (λ k (st : list (option CheckerboardViews) * nat * list Call),
       st.1.2 = rand_calls s + k ∧
       st.2 = calls s ++ extract_calls s k ∧
       length st.1.1 ≤ 10 ∧ Forall (accepted_view s k) st.1.1)
    (length (data_vec_ s)) (λ st, bool_decide (length st.1.1 < 10))
    (estimateInitialTransform_step s constraint) ([], rand_calls s, calls s))
    as ([[views n_rand] cl] & k & Hrun & Hk & (Hn & Hcl & Hlen & Hall) & _).
  - simpl. repeat split; [lia | unfold extract_calls; simpl; by rewrite app_nil_r | lia | constructor].
  - intros k [[views n_rand] cl] Hk (Hn & Hcl & Hlen & Hall) Hcond. simpl in *.
    apply bool_decide_eq_true in Hcond. subst n_rand cl.
    assert (Hidx : random_index s k < length (data_vec_ s)).
    { unfold random_index.
      pose proof (Z.mod_pos_bound (rand (rand_calls s + k))
                    (Z.of_nat (length (data_vec_ s))) ltac:(lia)). lia. }
    destruct (lookup_lt_is_Some_2 _ _ Hidx) as [data Hdata].
    exists (extract (cb_vec_ s) constraint data views, S (rand_calls s + k),
            (calls s ++ extract_calls s k)
            ++ [call_extract (random_index s k)]).
    split.
    { unfold estimateInitialTransform_step. fold (random_index s k).
      by rewrite Hdata. }
    cbn [fst snd]. repeat split.
    + lia.
    + by rewrite extract_calls_S, app_assoc.
    + unfold extract. destruct (detect (cb_vec_ s) data); [|lia].
      destruct (isValid constraint _); [|lia]. rewrite length_app. simpl. lia.
    + unfold extract. destruct (detect (cb_vec_ s) data) as [view|] eqn:Hdet.
      * destruct (isValid constraint (cv_colorCheckerboard view)) eqn:Hvalid.
        -- apply Forall_app. split.
           ++ eapply Forall_impl; [done|]. intros v. apply accepted_view_mono. lia.
           ++ constructor; [|constructor]. exists k, data, view.
              repeat split; [lia | done | done | done].
        -- eapply Forall_impl; [done|]. intros v. apply accepted_view_mono. lia.
      * eapply Forall_impl; [done|]. intros v. apply accepted_view_mono. lia.
  - simpl in *. subst n_rand cl. exists views, k. rewrite Hrun. simpl.
    repeat split; done.
Qed.

Lemma surviving_snoc vec v :
  surviving (vec ++ [v]) = surviving vec ++ match v with Some w => [w] | None => [] end.
Proof. unfold surviving. rewrite omap_app. by destruct v. Qed.

Lemma plane_pairs_snoc (l : list CheckerboardViews) w :
  mjoin (imap plane_pair (l ++ [w]))
  = mjoin (imap plane_pair l) ++ plane_pair (length l) w.
Proof.
  rewrite imap_app, join_app. f_equal. unfold plane_pair. simpl.
  by rewrite Nat.add_0_r.
Qed.

Lemma estimateTransform_loop vec :
  for_loop (length vec) (estimateTransform_step vec)
    (mkPlaneCalib (Z.of_nat (length vec)) [], 0%Z)
  = Some (mkPlaneCalib (Z.of_nat (length vec)) (pc_data (plane_calibration_of vec)),
          pc_size (plane_calibration_of vec)).
Proof.
  destruct (for_loop_invariant
    (λ i (st : PlaneBasedExtrinsicCalibration * Z),
       st = (mkPlaneCalib (Z.of_nat (length vec))
               (pc_data (plane_calibration_of (take i vec))),
             pc_size (plane_calibration_of (take i vec))))
    (length vec) (estimateTransform_step vec)
    (mkPlaneCalib (Z.of_nat (length vec)) [], 0%Z)) as (st & Hrun & Hst).
  - by rewrite take_0.
  - intros i t Hi ->. destruct (lookup_lt_is_Some_2 vec i Hi) as [v Hv].
    rewrite (take_S_r _ _ _ Hv). unfold estimateTransform_step. rewrite Hv. simpl.
    unfold plane_calibration_of. rewrite surviving_snoc. destruct v as [view|]; simpl.
    + eexists. split; [done|]. rewrite plane_pairs_snoc, length_app. simpl.
      do 2 f_equal. lia.
    + eexists. split; [done|]. by rewrite app_nil_r.
  - rewrite Hrun, Hst. by rewrite firstn_all.
Qed.

(** The plane-based estimation in closed form: null entries are skipped. *)
Lemma estimateTransform_spec vec s :
  estimateTransform vec s
  = cs ← color_sensor_ s;
    ds ← depth_sensor_ s;
    let r := PlaneBasedExtrinsicCalibration_perform (plane_calibration_of vec) cs ds in
    Some (log (call_PlaneBasedExtrinsicCalibration_perform (plane_calibration_of vec))
            (with_depth_sensor_ (with_color_sensor_ s (Some r.1)) (Some r.2))).
Proof.
  unfold estimateTransform. rewrite estimateTransform_loop. simpl.
  destruct (color_sensor_ s) as [cs|]; [|done]. simpl.
  destruct (depth_sensor_ s) as [ds|]; [|done]. simpl.
  unfold plane_calibration_of at 1 2. simpl.
  fold (plane_calibration_of vec).
  by destruct (PlaneBasedExtrinsicCalibration_perform _ cs ds).
Qed.

Lemma addDepthData_calls_S n :
  addDepthData_calls (S n) = addDepthData_calls n ++ [call_addDepthData n].
Proof. unfold addDepthData_calls. by rewrite seq_S, fmap_app. Qed.

Lemma perform_addDepthData_loop s cs due :
  color_sensor_ s = Some cs →
  depth_undistortion_estimation_ s = Some due →
  Forall is_Some (cb_views_vec_ s) →
  ∃ s', for_loop (length (cb_views_vec_ s)) perform_addDepthData s = Some s'
        ∧ cb_views_vec_ s' = cb_views_vec_ s
        ∧ calls s' = calls s ++ addDepthData_calls (length (cb_views_vec_ s))
        ∧ length (depth_data_vec_ s')
          = length (depth_data_vec_ s) + length (cb_views_vec_ s)
        ∧ color_sensor_ s' = Some cs
        ∧ depth_sensor_ s' = depth_sensor_ s
        ∧ is_Some (depth_undistortion_estimation_ s').
Proof.
  intros Hcs Hdue Hall.
  apply (for_loop_invariant
    (λ i t, cb_views_vec_ t = cb_views_vec_ s
            ∧ calls t = calls s ++ addDepthData_calls i
            ∧ length (depth_data_vec_ t) = length (depth_data_vec_ s) + i
            ∧ color_sensor_ t = Some cs
            ∧ depth_sensor_ t = depth_sensor_ s
            ∧ is_Some (depth_undistortion_estimation_ t))).
  - repeat split; [by rewrite app_nil_r | lia | done | by rewrite Hdue].
  - intros i t Hi (Hv & Hc & Hd & Hcs' & Hds & [due' Hdue']).
    unfold perform_addDepthData. rewrite Hv.
    destruct (lookup_lt_is_Some_2 _ _ Hi) as [v Hlook]. rewrite Hlook. simpl.
    rewrite Forall_lookup in Hall. destruct (Hall i v Hlook) as [view ->]. simpl.
    rewrite Hcs', Hdue'. simpl. eexists. split; [done|]. simpl.
    repeat split; try done.
    + by rewrite Hc, addDepthData_calls_S, app_assoc.
    + rewrite length_app, Hd. simpl. lia.
Qed.

Lemma run_phase_spec phase c s due :
  depth_undistortion_estimation_ s = Some due →
  ∃ s', run_phase phase c s = Some s'
        ∧ objects_of s' = phase due (objects_of s)
        ∧ cb_views_vec_ s' = cb_views_vec_ s
        ∧ calls s' = calls s ++ [c]
        ∧ depth_data_vec_ s' = depth_data_vec_ s
        ∧ color_sensor_ s' = color_sensor_ s
        ∧ depth_sensor_ s' = depth_sensor_ s
        ∧ depth_undistortion_estimation_ s' = Some due.
Proof.
  intros Hdue. unfold run_phase. rewrite Hdue. simpl. eexists. split; [done|].
  unfold objects_of. simpl. repeat split; try done.
  by destruct (phase due _).
Qed.

Lemma perform_keep_or_reset_loop s :
  Forall is_Some (cb_views_vec_ s) →
  length (cb_views_vec_ s) ≤ length (depth_data_vec_ s) →
  ∃ s', for_loop (length (cb_views_vec_ s)) perform_keep_or_reset s = Some s'
        ∧ cb_views_vec_ s' = imap (keep_or_reset s) (cb_views_vec_ s)
        ∧ objects_of s' = objects_of s
        ∧ calls s' = calls s
        ∧ depth_data_vec_ s' = depth_data_vec_ s
        ∧ color_sensor_ s' = color_sensor_ s
        ∧ depth_sensor_ s' = depth_sensor_ s.
Proof.
  intros Hall Hlen.
  destruct (for_loop_invariant
    (λ i t, length (cb_views_vec_ t) = length (cb_views_vec_ s)
            ∧ (∀ j, cb_views_vec_ t !! j
                    = if decide (j < i) then keep_or_reset s j <$> cb_views_vec_ s !! j
                      else cb_views_vec_ s !! j)
            ∧ depth_data_heap t = depth_data_heap s
            ∧ local_model_ t = local_model_ s
            ∧ global_model_ t = global_model_ s
            ∧ calls t = calls s
            ∧ depth_data_vec_ t = depth_data_vec_ s
            ∧ color_sensor_ t = color_sensor_ s
            ∧ depth_sensor_ t = depth_sensor_ s)
    (length (cb_views_vec_ s)) perform_keep_or_reset s)
    as (s' & Hrun & Hl & Hlook & Hheap & Hlm & Hgm & Hc & Hd & Hcs & Hds).
  - repeat split; done.
  - intros i t Hi (Hl & Hlook & Hheap & Hlm & Hgm & Hc & Hd & Hcs & Hds).
    unfold perform_keep_or_reset.
    destruct (lookup_lt_is_Some_2 _ _ Hi) as [v Hv].
    rewrite Hlook, decide_False, Hv by lia. simpl.
    rewrite Forall_lookup in Hall. destruct (Hall i v Hv) as [view ->]. simpl.
    rewrite Hd, Hheap.
    destruct (lookup_lt_is_Some_2 (depth_data_vec_ s) i ltac:(lia)) as [h Hh].
    rewrite Hh. simpl.
    assert (Hkeep : keep_or_reset s i (Some view)
                    = if dd_plane_extracted (depth_data_heap s h)
                      then Some (setPlaneInliers view
                                   (dd_estimated_plane (depth_data_heap s h)))
                      else None).
    { unfold keep_or_reset. simpl. by rewrite Hh. }
    exists (with_cb_views_vec_ t (<[i := keep_or_reset s i (Some view)]> (cb_views_vec_ t))).
    split.
    { rewrite Hkeep. by destruct (dd_plane_extracted (depth_data_heap s h)). }
    simpl. repeat split; try done.
    + by rewrite length_insert.
    + intros j. destruct (decide (j = i)) as [->|Hne].
      * rewrite list_lookup_insert_eq by lia. rewrite decide_True by lia.
        by rewrite Hv.
      * rewrite list_lookup_insert_ne by done. rewrite Hlook.
        destruct (decide (j < i)), (decide (j < S i)); done || lia.
  - exists s'. split; [done|]. unfold objects_of. rewrite Hheap, Hlm, Hgm.
    repeat split; try done.
    apply list_eq. intros j. rewrite Hlook, list_lookup_imap.
    destruct (decide (j < length (cb_views_vec_ s))) as [Hj|Hj]; [done|].
    by rewrite lookup_ge_None_2 by lia.
Qed.

Lemma keep_or_reset_ext s t i v :
  depth_data_vec_ s = depth_data_vec_ t → depth_data_heap s = depth_data_heap t →
  keep_or_reset s i v = keep_or_reset t i v.
Proof. intros Hd Hh. unfold keep_or_reset. by rewrite Hd, Hh. Qed.

(** The undistortion branch of [perform], end to end. *)
Lemma perform_undistortion_spec s cs due :
  color_sensor_ s = Some cs →
  depth_undistortion_estimation_ s = Some due →
  Forall is_Some (extractAll (ps_pose cs) (cb_vec_ s) (data_vec_ s) (cb_views_vec_ s)) →
  ∃ s_a due_a s',
    for_loop
      (length (extractAll (ps_pose cs) (cb_vec_ s) (data_vec_ s) (cb_views_vec_ s)))
      perform_addDepthData
      (log call_extractAll
         (with_cb_views_vec_ s
            (extractAll (ps_pose cs) (cb_vec_ s) (data_vec_ s) (cb_views_vec_ s))))
    = Some s_a
    ∧ depth_undistortion_estimation_ s_a = Some due_a
    ∧ perform_undistortion s = Some s'
    ∧ objects_of s'
      = estimateGlobalModel due_a
          (estimateLocalModelReverse due_a (estimateLocalModel due_a (objects_of s_a)))
    ∧ cb_views_vec_ s'
      = imap (keep_or_reset s')
          (extractAll (ps_pose cs) (cb_vec_ s) (data_vec_ s) (cb_views_vec_ s))
    ∧ calls s'
      = calls s ++ [call_extractAll]
        ++ addDepthData_calls
             (length (extractAll (ps_pose cs) (cb_vec_ s) (data_vec_ s) (cb_views_vec_ s)))
        ++ [call_estimateLocalModel; call_estimateLocalModelReverse;
            call_estimateGlobalModel]
    ∧ length (cb_views_vec_ s') ≤ length (depth_data_vec_ s')
    ∧ color_sensor_ s' = Some cs
    ∧ depth_sensor_ s' = depth_sensor_ s.
Proof.
  intros Hcs Hdue Hall. unfold perform_undistortion. rewrite Hcs. simpl.
  set (extracted := extractAll (ps_pose cs) (cb_vec_ s) (data_vec_ s) (cb_views_vec_ s)) in *.
  set (s0 := log call_extractAll (with_cb_views_vec_ s extracted)).
  destruct (perform_addDepthData_loop s0 cs due) as
    (s_a & Hrun_a & Hv_a & Hc_a & Hd_a & Hcs_a & Hds_a & [due_a Hdue_a]); try done.
  change (cb_views_vec_ s0) with extracted in *. rewrite Hrun_a. simpl.
  destruct (run_phase_spec estimateLocalModel call_estimateLocalModel s_a due_a Hdue_a)
    as (s_1 & -> & Ho_1 & Hv_1 & Hc_1 & Hd_1 & Hcs_1 & Hds_1 & Hdue_1). simpl.
  destruct (run_phase_spec estimateLocalModelReverse call_estimateLocalModelReverse
              s_1 due_a Hdue_1)
    as (s_2 & -> & Ho_2 & Hv_2 & Hc_2 & Hd_2 & Hcs_2 & Hds_2 & Hdue_2). simpl.
  destruct (run_phase_spec estimateGlobalModel call_estimateGlobalModel s_2 due_a Hdue_2)
    as (s_3 & -> & Ho_3 & Hv_3 & Hc_3 & Hd_3 & Hcs_3 & Hds_3 & Hdue_3). simpl.
  assert (Hviews : cb_views_vec_ s_3 = extracted) by congruence.
  destruct (perform_keep_or_reset_loop s_3) as
    (s' & Hrun & Hv' & Ho' & Hc' & Hd' & Hcs' & Hds').
  { by rewrite Hviews. }
  { rewrite Hviews, Hd_3, Hd_2, Hd_1, Hd_a. lia. }
  rewrite Hviews in Hv'. exists s_a, due_a, s'.
  split; [done|]. split; [done|]. split; [done|].
  split; [by rewrite Ho', Ho_3, Ho_2, Ho_1|].
  split.
  { rewrite Hv'. apply imap_ext. intros i v _. apply keep_or_reset_ext; [done|].
    unfold objects_of in Ho'. congruence. }
  split.
  { rewrite Hc', Hc_3, Hc_2, Hc_1, Hc_a. unfold s0, log. simpl.
    by rewrite <- !app_assoc. }
  split.
  { rewrite Hv', length_imap, Hd', Hd_3, Hd_2, Hd_1, Hd_a. lia. }
  split; [congruence|]. by rewrite Hds', Hds_3, Hds_2, Hds_1, Hds_a.
Qed.

(** C1 as amended. After the optional bootstrap, [perform] with
    undistortion estimation requested extracts the views of all frames, adds
    each to the estimator, runs [estimateLocalModel],
    [estimateLocalModelReverse] and [estimateGlobalModel] in that order, sets
    to null the views whose plane was not extracted, and then runs the
    plane-correspondence transform estimation ([estimateTransform]) on the
    surviving views; without undistortion estimation it runs that same
    estimation directly on the stored views. *)
Theorem perform_sequence (s s1 : Calibration) (cs : PinholeSensor)
    (ds : KinectDepthSensor) :
  perform_initial s = Some s1 →
  color_sensor_ s1 = Some cs →
  depth_sensor_ s1 = Some ds →
  (estimate_depth_und_model_ s1 = true →
   is_Some (depth_undistortion_estimation_ s1) →
   Forall is_Some
     (extractAll (ps_pose cs) (cb_vec_ s1) (data_vec_ s1) (cb_views_vec_ s1)) →
   ∃ s_a due_a s2 s',
     let extracted :=
       extractAll (ps_pose cs) (cb_vec_ s1) (data_vec_ s1) (cb_views_vec_ s1) in
     for_loop (length extracted) perform_addDepthData
       (log call_extractAll (with_cb_views_vec_ s1 extracted)) = Some s_a
     ∧ depth_undistortion_estimation_ s_a = Some due_a
     ∧ perform_undistortion s1 = Some s2
     ∧ objects_of s2
       = estimateGlobalModel due_a
           (estimateLocalModelReverse due_a (estimateLocalModel due_a (objects_of s_a)))
     ∧ cb_views_vec_ s2 = imap (keep_or_reset s2) extracted
     ∧ calls s2
       = calls s1 ++ [call_extractAll] ++ addDepthData_calls (length extracted)
         ++ [call_estimateLocalModel; call_estimateLocalModelReverse;
             call_estimateGlobalModel]
     ∧ perform s = estimateTransform (cb_views_vec_ s2) s2
     ∧ perform s = Some s'
     ∧ calls s'
       = calls s2
         ++ [call_PlaneBasedExtrinsicCalibration_perform
               (plane_calibration_of (cb_views_vec_ s2))]) ∧
  (estimate_depth_und_model_ s1 = false →
   ∃ s',
     perform s = estimateTransform (cb_views_vec_ s1) s1
     ∧ perform s = Some s'
     ∧ calls s'
       = calls s1
         ++ [call_PlaneBasedExtrinsicCalibration_perform
               (plane_calibration_of (cb_views_vec_ s1))]).
Proof.
  intros Hinit Hcs Hds. split.
  - intros Hflag [due Hdue] Hall.
    destruct (perform_undistortion_spec s1 cs due Hcs Hdue Hall) as
      (s_a & due_a & s2 & Hrun_a & Hdue_a & Hrun & Hobj & Hviews & Hcalls & _ & Hcs2 & Hds2).
    assert (Hperform : perform s = estimateTransform (cb_views_vec_ s2) s2).
    { unfold perform. rewrite Hinit. simpl. rewrite Hflag, Hrun. done. }
    rewrite Hds in Hds2.
    pose proof (estimateTransform_spec (cb_views_vec_ s2) s2) as Hest.
    rewrite Hcs2, Hds2 in Hest. simpl in Hest.
    exists s_a, due_a, s2. eexists. simpl.
    repeat split; try done.
    + by rewrite Hperform, Hest.
    + done.
  - intros Hflag.
    assert (Hperform : perform s = estimateTransform (cb_views_vec_ s1) s1).
    { unfold perform. rewrite Hinit. simpl. by rewrite Hflag. }
    pose proof (estimateTransform_spec (cb_views_vec_ s1) s1) as Hest.
    rewrite Hcs, Hds in Hest. simpl in Hest.
    eexists. repeat split; try done.
    + by rewrite Hperform, Hest.
    + done.
Qed.





Lemma insert_row_next {A : Type} (rows : list A) (i n : nat) (x z : A) :
  length rows = i → i < n →
  <[i := x]> (rows ++ replicate (n - i) z) = (rows ++ [x]) ++ replicate (n - S i) z.
Proof.
  intros Hl Hi. rewrite insert_app_r_alt by lia.
  replace (i - length rows) with 0 by lia.
  replace (n - i) with (S (n - S i)) by lia. simpl. by rewrite <- app_assoc.
Qed.

Lemma optimizeTransform_problem_spec (views : list CheckerboardViews) s cs ds :
  color_sensor_ s = Some cs → depth_sensor_ s = Some ds →
  optimizeTransform_problem (Some <$> views) s
  = Some (mkProblem (imap (transform_block cs ds) views) [],
          mkMemory (pose_row6 (ps_pose cs)) (view_row6 <$> views) [] []).
Proof.
  intros Hcs Hds. unfold optimizeTransform_problem. rewrite Hcs.
  cbn [mbind option_bind]. rewrite length_fmap.
  destruct (for_loop_invariant
    (λ i (st : Problem * list (list T)),
       st = (mkProblem (imap (transform_block cs ds) (take i views)) [],
             (view_row6 <$> take i views)
             ++ replicate (length views - i) (replicate 6 (s_of_int 0))))
    (length views) (optimizeTransform_step s (Some <$> views))
    (empty_problem, replicate (length views) (replicate 6 (s_of_int 0))))
    as (st & Hrun & ->).
  - rewrite take_0. simpl. by rewrite Nat.sub_0_r.
  - intros i t Hi ->. destruct (lookup_lt_is_Some_2 views i Hi) as [v Hv].
    unfold optimizeTransform_step. rewrite list_lookup_fmap, Hv. simpl.
    rewrite Hcs, Hds. simpl. eexists. split; [done|].
    rewrite (take_S_r _ _ _ Hv), imap_app, fmap_app. cbn [imap fmap list_fmap].
    rewrite length_take_le by lia. rewrite (Nat.add_0_r i).
    unfold AddResidualBlock. cbn [residual_blocks parameterizations]. f_equal.
    apply insert_row_next; [|done]. rewrite length_fmap, length_take_le; lia.
  - rewrite Hrun. simpl. rewrite firstn_all, Nat.sub_diag. simpl.
    by rewrite app_nil_r.
Qed.

(** [optimizeTransform] in closed form. *)
Lemma optimizeTransform_spec (views : list CheckerboardViews) s cs ds :
  color_sensor_ s = Some cs → depth_sensor_ s = Some ds →
  let problem := mkProblem (imap (transform_block cs ds) views) [] in
  let memory :=
    ceres_Solve optimizeTransform_options problem
      (mkMemory (pose_row6 (ps_pose cs)) (view_row6 <$> views) [] []) in
  optimizeTransform (Some <$> views) s
  = Some (with_color_sensor_ (log (call_ceres_Solve optimizeTransform_options problem) s)
            (Some (setPose cs
                     (pose_of_rotation_vector (head3 (m_transform memory))
                        (tail3 6 (m_transform memory)))))).
Proof.
  intros Hcs Hds. unfold optimizeTransform.
  rewrite (optimizeTransform_problem_spec views s cs ds Hcs Hds). simpl.
  by rewrite Hcs.
Qed.

(** C10. [optimizeTransform] changes the pose of the color sensor and nothing
    else of the calibration: the stored views with their checkerboard poses,
    the depth sensor, the depth intrinsics, the undistortion models and the
    frame and depth data are as before, and the new pose is read from the
    [transform] row alone, the per-view rows of the local matrix being
    dropped. *)
Theorem optimizeTransform_changes_only_color_pose (views : list CheckerboardViews)
    (s : Calibration) (cs : PinholeSensor) (ds : KinectDepthSensor) :
  color_sensor_ s = Some cs → depth_sensor_ s = Some ds →
  ∃ s' problem transform,
    optimizeTransform (Some <$> views) s = Some s'
    ∧ transform
      = m_transform (ceres_Solve optimizeTransform_options problem
                       (mkMemory (pose_row6 (ps_pose cs)) (view_row6 <$> views) [] []))
    ∧ color_sensor_ s'
      = Some (mkPinholeSensor (ps_parent cs)
                (pose_of_rotation_vector (head3 transform) (tail3 6 transform))
                (ps_cameraModel cs))
    ∧ cb_views_vec_ s' = cb_views_vec_ s
    ∧ depth_sensor_ s' = depth_sensor_ s
    ∧ depth_intrinsics_ s' = depth_intrinsics_ s
    ∧ local_model_ s' = local_model_ s
    ∧ global_model_ s' = global_model_ s
    ∧ local_matrix_ s' = local_matrix_ s
    ∧ global_matrix_ s' = global_matrix_ s
    ∧ depth_undistortion_estimation_ s' = depth_undistortion_estimation_ s
    ∧ data_vec_ s' = data_vec_ s
    ∧ depth_data_vec_ s' = depth_data_vec_ s
    ∧ depth_data_heap s' = depth_data_heap s
    ∧ cb_vec_ s' = cb_vec_ s
    ∧ ratio_ s' = ratio_ s
    ∧ estimate_depth_und_model_ s' = estimate_depth_und_model_ s
    ∧ estimate_initial_trasform_ s' = estimate_initial_trasform_ s.
Proof.
  intros Hcs Hds. eexists. eexists. eexists.
  split; [by apply (optimizeTransform_spec views s cs ds)|].
  split; [done|]. simpl. repeat split.
Qed.

Lemma TransformError_call_spec e color_sensor_pose checkerboard_pose residuals :
  length residuals = 2 * cb_size (te_checkerboard e) →
  cb_size (te_checkerboard e) ≤ length (te_image_corners e) →
  ∃ r, TransformError_call e color_sensor_pose checkerboard_pose residuals = Some r
       ∧ length r = 2 * cb_size (te_checkerboard e)
       ∧ ∀ k corner image_corner,
           cb_corners (te_checkerboard e) !! k = Some corner →
           te_image_corners e !! k = Some image_corner →
           r !! (2 * k)
           = Some (reprojection_residual e checkerboard_pose corner image_corner)
           ∧ r !! (2 * k + 1)
             = Some (depth_residual e color_sensor_pose checkerboard_pose corner).
Proof.
  intros Hlen Himg. unfold TransformError_call, cb_size in *.
  rewrite !length_fmap.
  set (cbp := pose_of_rotation_vector (head3 checkerboard_pose) (tail3 6 checkerboard_pose)).
  set (csp := pose_of_rotation_vector (head3 color_sensor_pose) (tail3 6 color_sensor_pose)).
  set (corners := cb_corners (te_checkerboard e)) in *.
  destruct (for_loop_invariant
    (λ i r, length r = 2 * length corners
            ∧ ∀ k corner image_corner,
                k < i → corners !! k = Some corner →
                te_image_corners e !! k = Some image_corner →
                r !! (2 * k)
                = Some (reprojection_residual e checkerboard_pose corner image_corner)
                ∧ r !! (2 * k + 1)
                  = Some (depth_residual e color_sensor_pose checkerboard_pose corner))
    (length corners)
    (TransformError_residual e
       (project3dToPixel2 (te_camera_model e) <$> (pose_apply cbp <$> corners))
       (pose_apply csp <$> (pose_apply cbp <$> corners)))
    residuals) as (r & Hrun & Hr & Hall).
  - split; [done|]. intros; lia.
  - intros i r Hi (Hr & Hdone).
    destruct (lookup_lt_is_Some_2 corners i Hi) as [corner Hcorner].
    destruct (lookup_lt_is_Some_2 (te_image_corners e) i ltac:(lia)) as [img Himg'].
    unfold TransformError_residual.
    rewrite !list_lookup_fmap, Hcorner, Himg'. simpl.
    eexists. split; [done|]. split; [by rewrite !length_insert|].
    intros k corner' img' Hk Hc' Hi'. destruct (decide (k = i)) as [->|Hne].
    + assert (corner' = corner) as -> by congruence.
      assert (img' = img) as -> by congruence.
      split.
      * rewrite list_lookup_insert_ne by lia.
        by rewrite list_lookup_insert_eq by lia.
      * by rewrite list_lookup_insert_eq by (rewrite length_insert; lia).
    + rewrite !list_lookup_insert_ne by lia. apply Hdone; [lia | done | done].
  - exists r. split; [done|]. split; [done|]. intros k corner img Hc Hi.
    apply Hall; [|done|done]. by apply lookup_lt_Some in Hc.
Qed.

(** C4. In transform-only mode the problem holds exactly one residual block
    per view, of size twice the corner count, with a Cauchy loss, on the
    shared [transform] block and the view's own row; in it component [2 k] is
    the pixel distance between corner [k] reprojected under the candidate
    checkerboard pose and the detected image corner, divided by 0.5, and
    component [2 k + 1] is the corner's absolute distance to the depth-fitted
    plane divided by the depth error function at the corner's depth. The
    solve uses the sparse Schur solver with at most 100 iterations. *)
Theorem transform_only_problem (views : list CheckerboardViews) (s : Calibration)
    (cs : PinholeSensor) (ds : KinectDepthSensor) :
  color_sensor_ s = Some cs → depth_sensor_ s = Some ds →
  ∃ problem memory s',
    optimizeTransform_problem (Some <$> views) s = Some (problem, memory)
    ∧ optimizeTransform (Some <$> views) s = Some s'
    ∧ calls s' = calls s ++ [call_ceres_Solve (mkOptions SPARSE_SCHUR 100 true 8) problem]
    ∧ length (residual_blocks problem) = length views
    ∧ ∀ i cb_views,
        views !! i = Some cb_views →
        ∃ e,
          residual_blocks problem !! i
          = Some (mkResidualBlock
                    (TransformCostFunction e (2 * cb_size (cv_checkerboard cb_views)))
                    (Some (CauchyLoss (s_of_int 1)))
                    [transform_data 0; row_data i 0])
          ∧ e = mkTransformError (ps_cameraModel cs) (cv_checkerboard cb_views)
                  (cv_colorView_points cb_views) (pi_plane (cv_depthPlane cb_views))
                  (ds_depthErrorFunction ds)
          ∧ ∀ color_sensor_pose checkerboard_pose residuals,
              length residuals = 2 * cb_size (cv_checkerboard cb_views) →
              cb_size (cv_checkerboard cb_views) ≤ length (cv_colorView_points cb_views) →
              ∃ r,
                TransformError_call e color_sensor_pose checkerboard_pose residuals
                = Some r
                ∧ length r = 2 * cb_size (cv_checkerboard cb_views)
                ∧ ∀ k corner image_corner,
                    cb_corners (cv_checkerboard cb_views) !! k = Some corner →
                    cv_colorView_points cb_views !! k = Some image_corner →
                    r !! (2 * k)
                    = Some (reprojection_residual e checkerboard_pose corner image_corner)
                    ∧ r !! (2 * k + 1)
                      = Some (depth_residual e color_sensor_pose checkerboard_pose
                                corner).
Proof.
  intros Hcs Hds. eexists. eexists. eexists.
  split; [by apply (optimizeTransform_problem_spec views s cs ds)|].
  split; [by apply (optimizeTransform_spec views s cs ds)|].
  split; [done|]. simpl. split; [by rewrite length_imap|].
  intros i cb_views Hi. eexists. split.
  { rewrite list_lookup_imap, Hi. done. }
  split; [done|].
  intros color_sensor_pose checkerboard_pose residuals Hlen Himg.
  by apply TransformError_call_spec.
Qed.

Lemma optimizeAll_problem_spec (views : list CheckerboardViews) s cs ds gm :
  color_sensor_ s = Some cs → depth_sensor_ s = Some ds →
  global_model_ s = Some gm → global_matrix_ s = true →
  optimizeAll_problem (Some <$> views) s
  = Some (full_problem cs ds gm views, view_row7 <$> views).
Proof.
  intros Hcs Hds Hgm Hmat. unfold optimizeAll_problem. rewrite length_fmap.
  destruct (for_loop_invariant
    (λ i (st : Problem * list (list T)),
       st = (mkProblem (mjoin (imap (full_blocks cs ds gm) (take i views)))
               (imap (λ i _, (row_data i 0, QuaternionParameterization)) (take i views)),
             (view_row7 <$> take i views)
             ++ replicate (length views - i) (replicate 7 (s_of_int 0))))
    (length views) (optimizeAll_step s (Some <$> views))
    (empty_problem, replicate (length views) (replicate 7 (s_of_int 0))))
    as (st & Hrun & ->).
  - rewrite take_0. simpl. by rewrite Nat.sub_0_r.
  - intros i t Hi ->. destruct (lookup_lt_is_Some_2 views i Hi) as [v Hv].
    unfold optimizeAll_step. rewrite list_lookup_fmap, Hv. simpl.
    rewrite Hcs, Hds, Hgm, Hmat. simpl. eexists. split; [done|].
    rewrite (take_S_r _ _ _ Hv), !imap_app, join_app, fmap_app.
    cbn [imap fmap list_fmap mjoin list_join].
    rewrite length_take_le by lia. rewrite (Nat.add_0_r i).
    unfold AddResidualBlock, SetParameterization.
    cbn [residual_blocks parameterizations]. rewrite app_nil_r. f_equal.
    + f_equal. by rewrite <- app_assoc.
    + apply insert_row_next; [|done]. rewrite length_fmap, length_take_le; lia.
  - rewrite Hrun. cbn [mbind option_bind]. rewrite firstn_all, Nat.sub_diag.
    simpl. by rewrite app_nil_r.
Qed.

Lemma ReprojectionError_call_spec e checkerboard_pose_q checkerboard_pose_t residuals :
  length residuals = 2 * cb_size (re_checkerboard e) →
  length (re_image_corners e) = cb_size (re_checkerboard e) →
  ∃ r, ReprojectionError_call e checkerboard_pose_q checkerboard_pose_t residuals
       = Some r
       ∧ length r = 2 * cb_size (re_checkerboard e)
       ∧ ∀ k corner image_corner,
           cb_corners (re_checkerboard e) !! k = Some corner →
           re_image_corners e !! k = Some image_corner →
           let reprojected :=
             reprojected_corner e checkerboard_pose_q checkerboard_pose_t corner in
           r !! (2 * k)
           = Some (sdiv (ssub (p2x reprojected) (p2x image_corner))
                        (reprojection_scale e))
           ∧ r !! (2 * k + 1)
             = Some (sdiv (ssub (p2y reprojected) (p2y image_corner))
                          (reprojection_scale e)).
Proof.
  intros Hlen Himg. unfold ReprojectionError_call, reprojection_scale, cb_size in *.
  rewrite !length_fmap. rewrite decide_True by done.
  set (cbp := pose_of_quaternion _ _).
  set (corners := cb_corners (re_checkerboard e)) in *.
  destruct (for_loop_invariant
    (λ i r, length r = 2 * length corners
            ∧ ∀ k corner image_corner,
                k < i → corners !! k = Some corner →
                re_image_corners e !! k = Some image_corner →
                let reprojected :=
                  reprojected_corner e checkerboard_pose_q checkerboard_pose_t corner in
                r !! (2 * k)
                = Some (sdiv (ssub (p2x reprojected) (p2x image_corner))
                          (smul s_half (ssqrt (s_of_int (Z.of_nat (length corners))))))
                ∧ r !! (2 * k + 1)
                  = Some (sdiv (ssub (p2y reprojected) (p2y image_corner))
                            (smul s_half (ssqrt (s_of_int (Z.of_nat (length corners)))))))
    (length corners)
    (ReprojectionError_store e
       (project3dToPixel2 (re_camera_model e) <$> (pose_apply cbp <$> corners)))
    residuals) as (r & Hrun & Hr & Hall).
  - split; [done|]. intros; lia.
  - intros i r Hi (Hr & Hdone).
    destruct (lookup_lt_is_Some_2 corners i Hi) as [corner Hcorner].
    destruct (lookup_lt_is_Some_2 (re_image_corners e) i ltac:(lia)) as [img Himg'].
    unfold ReprojectionError_store.
    rewrite !list_lookup_fmap, Hcorner, Himg'. simpl.
    eexists. split; [done|]. split; [by rewrite !length_insert|].
    intros k corner' img' Hk Hc' Hi'. destruct (decide (k = i)) as [->|Hne].
    + assert (corner' = corner) as -> by congruence.
      assert (img' = img) as -> by congruence.
      rewrite !length_fmap. split.
      * rewrite list_lookup_insert_ne by lia.
        by rewrite list_lookup_insert_eq by lia.
      * by rewrite list_lookup_insert_eq by (rewrite length_insert; lia).
    + rewrite !list_lookup_insert_ne by lia. apply Hdone; [lia | done | done].
  - exists r. split; [done|]. split; [done|]. intros k corner img Hc Hi.
    apply Hall; [|done|done]. by apply lookup_lt_Some in Hc.
Qed.

Lemma join_pairs_lookup {A B : Type} (a b : nat → A → B) (l : list A) (i : nat) :
  mjoin (imap (λ j w, [a j w; b j w]) l) !! (2 * i + 1) = b i <$> l !! i.
Proof.
  revert a b i. induction l as [|x l IH]; intros a b i; [done|].
  destruct i as [|i]; [done|].
  replace (2 * S i + 1) with (S (S (2 * i + 1))) by lia.
  cbn [imap mjoin list_join app lookup list_lookup].
  apply (IH (a ∘ S) (b ∘ S) i).
Qed.

(** C5 as amended. In full mode the problem holds, for every view, a
    reprojection block of twice the corner count on the view's own pose
    blocks, without loss function; each of its components is the difference
    between a reprojected corner coordinate and the detected image-corner
    coordinate, divided by 0.5 times the square root of the corner count. *)
Theorem full_mode_reprojection_residuals (views : list CheckerboardViews)
    (s : Calibration) (cs : PinholeSensor) (ds : KinectDepthSensor) (gm : GlobalModel) :
  color_sensor_ s = Some cs → depth_sensor_ s = Some ds →
  global_model_ s = Some gm → global_matrix_ s = true →
  ∃ problem data,
    optimizeAll_problem (Some <$> views) s = Some (problem, data)
    ∧ ∀ i cb_views,
        views !! i = Some cb_views →
        ∃ e,
          residual_blocks problem !! (2 * i + 1)
          = Some (mkResidualBlock
                    (ReprojectionCostFunction e (2 * cb_size (cv_checkerboard cb_views)))
                    None [row_data i 0; row_data i 4])
          ∧ e = reprojection_error_of cs cb_views
          ∧ ∀ checkerboard_pose_q checkerboard_pose_t residuals,
              length residuals = 2 * cb_size (cv_checkerboard cb_views) →
              length (cv_colorView_points cb_views) = cb_size (cv_checkerboard cb_views) →
              ∃ r,
                ReprojectionError_call e checkerboard_pose_q checkerboard_pose_t residuals
                = Some r
                ∧ length r = 2 * cb_size (cv_checkerboard cb_views)
                ∧ ∀ k corner image_corner,
                    cb_corners (cv_checkerboard cb_views) !! k = Some corner →
                    cv_colorView_points cb_views !! k = Some image_corner →
                    let reprojected :=
                      reprojected_corner e checkerboard_pose_q checkerboard_pose_t
                        corner in
                    let scale :=
                      smul s_half
                        (ssqrt (s_of_int (Z.of_nat (cb_size (cv_checkerboard cb_views)))))
                    in
                    r !! (2 * k)
                    = Some (sdiv (ssub (p2x reprojected) (p2x image_corner)) scale)
                    ∧ r !! (2 * k + 1)
                      = Some (sdiv (ssub (p2y reprojected) (p2y image_corner)) scale).
Proof.
  intros Hcs Hds Hgm Hmat. eexists. eexists.
  split; [by apply (optimizeAll_problem_spec views s cs ds gm)|].
  intros i cb_views Hi. exists (reprojection_error_of cs cb_views). split.
  { unfold full_problem. cbn [residual_blocks]. unfold full_blocks.
    rewrite (join_pairs_lookup
               (λ i cb_views, mkResidualBlock
                  (TransformDistortionCostFunction
                     (mkTransformDistortionError (ps_cameraModel cs) (ds_cameraModel ds)
                        (cv_checkerboard cb_views) (rgbd_depthData (cv_data cb_views))
                        (pi_indices (cv_depthPlane cb_views)) (ds_depthErrorFunction ds)
                        (gm_imageSize gm))
                     (3 * length (pi_indices (cv_depthPlane cb_views))))
                  None
                  [transform_data 0; transform_data 4; global_dataPtr;
                   row_data i 0; row_data i 4; delta_ptr])
               (λ i cb_views, mkResidualBlock
                  (ReprojectionCostFunction (reprojection_error_of cs cb_views)
                     (2 * cb_size (cv_checkerboard cb_views)))
                  None [row_data i 0; row_data i 4])).
    by rewrite Hi. }
  split; [done|].
  intros q t residuals Hlen Himg.
  by apply (ReprojectionError_call_spec (reprojection_error_of cs cb_views)).
Qed.




Lemma polynomial_lookup m x y j :
  j < SIZE → polynomial m x y !! j = Some (coeff (gm_data m) ((x + 2 * y) * SIZE + j)).
Proof.
  intros Hj. unfold polynomial. rewrite list_lookup_fmap, lookup_seq_lt by done.
  done.
Qed.












End EngineProperties.

(** ** The engine on the sample inputs *)

Section SampleRuns.

#[local] Existing Instance F64_Scalar.
#[local] Existing Instance ref_library.
#[local] Existing Instance ref_collaborators.


Lemma sample_views_extracted :
  Forall is_Some
    (extractAll (ps_pose sample_color_sensor) (cb_vec_ sample_state)
       (data_vec_ sample_state) (cb_views_vec_ sample_state)).
Proof. repeat (constructor; [eexists; reflexivity|]). constructor. Qed.

(** On the sample state [perform] extracts two views, runs the three phases
    and ends with the plane-based calibration. *)
Lemma perform_sequence_witness :
  ∃ s' calib,
    perform sample_state = Some s'
    ∧ calls s'
      = [call_extractAll; call_addDepthData 0; call_addDepthData 1;
         call_estimateLocalModel; call_estimateLocalModelReverse;
         call_estimateGlobalModel;
         call_PlaneBasedExtrinsicCalibration_perform calib].
Proof.
  destruct (perform_sequence sample_state sample_state sample_color_sensor
              sample_depth_sensor eq_refl eq_refl eq_refl) as [Hrequested _].
  destruct (Hrequested eq_refl (ex_intro _ _ eq_refl) sample_views_extracted)
    as (s_a & due_a & s2 & s' & _ & _ & _ & _ & _ & Hcalls2 & _ & Hperform & Hcalls').
  exists s', (plane_calibration_of (cb_views_vec_ s2)).
  split; [exact Hperform|]. rewrite Hcalls', Hcalls2. reflexivity.
Defined.

(** The sample run of [perform] never calls the Ceres solver. *)
Lemma perform_runs_no_transform_optimizer :
  ¬ @perform_runs_transform_optimizer F64.t F64_Scalar ref_library ref_collaborators.
Proof.
  intros Hclaim.
  assert (Hlog : (λ s, forallb (λ c, negb (is_ceres_Solve c)) (calls s))
                 <$> perform sample_state = Some true) by reflexivity.
  destruct (perform sample_state) as [s'|] eqn:Hperform; [|discriminate Hlog].
  injection Hlog as Hlog. rewrite forallb_forall in Hlog.
  destruct (Hclaim sample_state s' Hperform) as [problem Hin].
  apply list_elem_of_In in Hin. specialize (Hlog _ Hin). discriminate Hlog.
Qed.


(** The second sample frame is not dense, its plane is not extracted and its
    view is dropped: one view survives of two. *)
Example sample_pipeline_drops_a_view :
  (λ s', length (surviving (cb_views_vec_ s'))) <$> perform_undistortion sample_state
  = Some 1.
Proof. reflexivity. Qed.

Lemma optimizeTransform_changes_only_color_pose_witness :
  ∃ s',
    optimizeTransform [Some sample_view] sample_state = Some s'
    ∧ cb_views_vec_ s' = cb_views_vec_ sample_state
    ∧ depth_sensor_ s' = Some sample_depth_sensor
    ∧ depth_intrinsics_ s' = [d 500; d 500; d 320; d 240]
    ∧ global_model_ s' = Some sample_global_model.
Proof.
  destruct (optimizeTransform_changes_only_color_pose [sample_view] sample_state
              sample_color_sensor sample_depth_sensor eq_refl eq_refl)
    as (s' & problem & transform & Hrun & _ & _ & Hviews & Hds & Hintr & _ & Hgm & _).
  exists s'. repeat split; assumption.
Defined.

Lemma transform_only_problem_witness :
  ∃ problem memory s' e,
    optimizeTransform_problem [Some sample_view] sample_state = Some (problem, memory)
    ∧ optimizeTransform [Some sample_view] sample_state = Some s'
    ∧ calls s' = [call_ceres_Solve (mkOptions SPARSE_SCHUR 100 true 8) problem]
    ∧ residual_blocks problem
      = [mkResidualBlock (TransformCostFunction e 8) (Some (CauchyLoss (d 1)))
           [transform_data 0; row_data 0 0]].
Proof.
  destruct (transform_only_problem [sample_view] sample_state sample_color_sensor
              sample_depth_sensor eq_refl eq_refl)
    as (problem & memory & s' & Hproblem & Hrun & Hcalls & Hlen & Hblocks).
  destruct (Hblocks 0 sample_view eq_refl) as (e & Hblock & _ & _).
  exists problem, memory, s', e. repeat split; try assumption.
  destruct (residual_blocks problem) as [|b [|b' l]]; try discriminate Hlen.
  simpl in Hblock. by injection Hblock as ->.
Defined.

Lemma full_mode_reprojection_residuals_witness :
  ∃ problem data e r,
    optimizeAll_problem [Some sample_view] sample_state = Some (problem, data)
    ∧ residual_blocks problem !! 1
      = Some (mkResidualBlock (ReprojectionCostFunction e 8) None
                [row_data 0 0; row_data 0 4])
    ∧ ReprojectionError_call e [d 1; d 0; d 0; d 0] [d 0; d 0; d 0] (replicate 8 (d 0))
      = Some r
    ∧ r !! 0 = Some (sdiv (ssub (d 1) (d 0)) (smul s_half (ssqrt (d 4)))).
Proof.
  destruct (full_mode_reprojection_residuals [sample_view] sample_state
              sample_color_sensor sample_depth_sensor sample_global_model
              eq_refl eq_refl eq_refl eq_refl)
    as (problem & data & Hproblem & Hblocks).
  destruct (Hblocks 0 sample_view eq_refl) as (e & Hblock & -> & Hres).
  destruct (Hres [d 1; d 0; d 0; d 0] [d 0; d 0; d 0] (replicate 8 (d 0))
              eq_refl eq_refl) as (r & Hcall & _ & Hcomponents).
  destruct (Hcomponents 0 (mkV3 (d 1) (d 1) (d 1)) (mkP2 (d 0) (d 0)) eq_refl eq_refl)
    as [Hx _].
  exists problem, data, (reprojection_error_of sample_color_sensor sample_view), r.
  repeat split; assumption.
Defined.

(** With four corners the code divides by 0.5 * sqrt 4 = 1, not by 0.5: the
    first component of the sample residual is 1, where the claim gives 2. *)
Lemma reprojection_not_normalized_by_pixel_noise :
  ¬ @reprojection_normalized_by_pixel_noise F64.t F64_Scalar ref_library.
Proof.
  intros Hclaim.
  pose (e := reprojection_error_of sample_color_sensor sample_view).
  assert (Hcall : ReprojectionError_call e [d 1; d 0; d 0; d 0] [d 0; d 0; d 0]
                    (replicate 8 (d 0))
                  = Some [d 1; d 1; d 2; d 1; d 1; d 2; d 2; d 2]) by reflexivity.
  destruct (Hclaim e [d 1; d 0; d 0; d 0] [d 0; d 0; d 0] (replicate 8 (d 0)) _ 0
              (mkV3 (d 1) (d 1) (d 1)) (mkP2 (d 0) (d 0)) eq_refl Hcall eq_refl eq_refl)
    as [Hx _].
  vm_compute in Hx. discriminate Hx.
Qed.


End SampleRuns.
